(** * Reconciliation protocol of the Langfuse Terraform provider

    A shallow embedding of the resource adapters (organization membership,
    project, organization) and of the organization-scoped API client they
    call, followed by the properties of the reconciliation, import and
    idempotency protocol.

    Layout:
    - [strings]: the functions of Go's [strings] package the provider uses;
    - [types], [diag], [resource]: the slice of the plugin framework the
      adapters touch (nullable values, diagnostics, the response's state);
    - [Prog]: programs over an interface of remote calls, run against a
      handler that plays the remote side and records every call;
    - [langfuse]: the API client ([organizationClientImpl]) over HTTP;
    - [provider]: the resource adapters over the client interfaces. *)

From Stdlib Require Import String Ascii List ZArith Bool Lia.
From stdpp Require Import base gmap strings.
Import ListNotations.
Local Open Scope string_scope.
Local Open Scope list_scope.

(** Go's [error] is observed only through [err.Error()]: an error is its
    message.  A function returning [(T, error)] returns [result T]; a function
    returning only [error] returns [option error] ([None] is [nil]). *)
Definition error := string.

Inductive result (A : Type) : Type :=
| Ok (a : A)
| Err (err : error).
Arguments Ok {A} a.
Arguments Err {A} err.

Definition is_Err {A} (r : result A) : bool :=
  match r with Ok _ => false | Err _ => true end.

(** ** Package [strings] *)
Module strings.

Fixpoint HasPrefix (s prefix : string) {struct prefix} : bool :=
  match prefix, s with
  | EmptyString, _ => true
  | String a prefix', String b s' => Ascii.eqb a b && HasPrefix s' prefix'
  | String _ _, EmptyString => false
  end.

(** [Contains s substr]: [substr] occurs in [s] (at some offset). *)
Fixpoint Contains (s substr : string) : bool :=
  HasPrefix s substr ||
  match s with
  | EmptyString => false
  | String _ s' => Contains s' substr
  end.

(** Lower-casing of one byte; only 'A'..'Z' change.  Code points outside
    ASCII never lower-case to one of the letters the provider looks for, so
    on the provider's tests the byte-wise function agrees with Go's. *)
Definition toLowerByte (c : ascii) : ascii :=
  let n := nat_of_ascii c in
  if (65 <=? n)%nat && (n <=? 90)%nat then ascii_of_nat (n + 32) else c.

Fixpoint ToLower (s : string) : string :=
  match s with
  | EmptyString => EmptyString
  | String c s' => String (toLowerByte c) (ToLower s')
  end.

(** [Split s sep] for a one-byte separator: the fields between the
    separators, in order; always at least one field. *)
Fixpoint Split (s : string) (sep : ascii) : list string :=
  match s with
  | EmptyString => [EmptyString]
  | String c s' =>
      if Ascii.eqb c sep then EmptyString :: Split s' sep
      else match Split s' sep with
           | field :: rest => String c field :: rest
           | [] => [String c EmptyString]
           end
  end.

(** [Count s sep] for a one-byte separator: its occurrences in [s]. *)
Fixpoint Count (s : string) (sep : ascii) : nat :=
  match s with
  | EmptyString => 0
  | String c s' => (if Ascii.eqb c sep then 1 else 0) + Count s' sep
  end.

Fixpoint Join (elems : list string) (sep : string) : string :=
  match elems with
  | [] => EmptyString
  | [x] => x
  | x :: rest => x +:+ sep +:+ Join rest sep
  end.

End strings.

(** ** Framework values: [types.String], [types.Int32], [types.Map] *)
Module types.

Inductive String_ : Type :=
| StringNull
| StringUnknown
| StringValue (s : string).

Definition ValueString (v : String_) : string :=
  match v with StringValue s => s | _ => EmptyString end.

Definition StringIsNull (v : String_) : bool :=
  match v with StringNull => true | _ => false end.
Definition StringIsUnknown (v : String_) : bool :=
  match v with StringUnknown => true | _ => false end.

Inductive Int32 : Type :=
| Int32Null
| Int32Unknown
| Int32Value (n : Z).

Definition ValueInt32 (v : Int32) : Z :=
  match v with Int32Value n => n | _ => 0%Z end.

Inductive Map : Type :=
| MapNull
| MapUnknown
| MapValue (elems : gmap string string).

Definition IsNull (m : Map) : bool :=
  match m with MapNull => true | _ => false end.
Definition IsUnknown (m : Map) : bool :=
  match m with MapUnknown => true | _ => false end.

(** [ElementsAs(ctx, &metadata, false)] on a known map of strings. *)
Definition ElementsAs (m : Map) : gmap string string :=
  match m with MapValue elems => elems | _ => ∅ end.

(** The adapters' conversion of a remote metadata map:
    [MapValueFrom] when [len(metadata) > 0], [MapNull] otherwise. *)
Definition metadataMap (metadata : gmap string string) : Map :=
  if (0 <? size metadata)%nat then MapValue metadata else MapNull.

End types.

(** ** Diagnostics *)
Module diag.

Inductive Severity : Type := SeverityError | SeverityWarning.

Record Diagnostic : Type := mkDiagnostic {
  severity : Severity;
  Summary : string;
  Detail : string
}.

Definition Diagnostics := list Diagnostic.

Definition Severity_eqb (a b : Severity) : bool :=
  match a, b with
  | SeverityError, SeverityError | SeverityWarning, SeverityWarning => true
  | _, _ => false
  end.

Definition Diagnostic_eqb (a b : Diagnostic) : bool :=
  Severity_eqb (severity a) (severity b)
  && String.eqb (Summary a) (Summary b)
  && String.eqb (Detail a) (Detail b).

Definition Contains (diags : Diagnostics) (d : Diagnostic) : bool :=
  existsb (Diagnostic_eqb d) diags.

(** [Append] skips a diagnostic that is already present. *)
Definition Append (diags : Diagnostics) (d : Diagnostic) : Diagnostics :=
  if Contains diags d then diags else diags ++ [d].

Definition AddError (diags : Diagnostics) (summary detail : string) : Diagnostics :=
  Append diags (mkDiagnostic SeverityError summary detail).

Definition AddWarning (diags : Diagnostics) (summary detail : string) : Diagnostics :=
  Append diags (mkDiagnostic SeverityWarning summary detail).

Definition isError (d : Diagnostic) : bool := Severity_eqb (severity d) SeverityError.

Definition HasError (diags : Diagnostics) : bool := existsb isError diags.

Definition Errors (diags : Diagnostics) : Diagnostics := List.filter isError diags.
Definition Warnings (diags : Diagnostics) : Diagnostics :=
  List.filter (fun d => negb (isError d)) diags.

End diag.

(** ** The response of a resource operation

    Every operation receives a response holding the diagnostics and the
    state the host will persist, and fills it in.  [State = None] is the
    null state (no durable record: before Create, or after
    [State.RemoveResource]); [State = Some m] is the record [m]. *)
Module resource.

Record Response (Model : Type) : Type := mkResponse {
  Diagnostics : diag.Diagnostics;
  State : option Model
}.
Arguments mkResponse {Model} _ _.
Arguments Diagnostics {Model} _.
Arguments State {Model} _.

Section Ops.
Context {Model : Type}.

Definition AddError (resp : Response Model) (summary detail : string) : Response Model :=
  mkResponse (diag.AddError (Diagnostics resp) summary detail) (State resp).

Definition AddWarning (resp : Response Model) (summary detail : string) : Response Model :=
  mkResponse (diag.AddWarning (Diagnostics resp) summary detail) (State resp).

(** [resp.State.Set(ctx, model)] *)
Definition Set_ (resp : Response Model) (m : Model) : Response Model :=
  mkResponse (Diagnostics resp) (Some m).

(** [resp.State.RemoveResource(ctx)] *)
Definition RemoveResource (resp : Response Model) : Response Model :=
  mkResponse (Diagnostics resp) None.
End Ops.

End resource.

(** ** Programs over an interface of remote calls

    [call] is the type of the calls of an interface and [answer c] the type
    of what call [c] returns.  A program either returns, or makes a call and
    continues with its answer. *)
Section Programs.
Context {call : Type} {answer : call -> Type}.

Inductive Prog (A : Type) : Type :=
| Ret (a : A)
| Call (c : call) (k : answer c -> Prog A).
Arguments Ret {A} a.
Arguments Call {A} c k.

Fixpoint bind {A B} (p : Prog A) (f : A -> Prog B) : Prog B :=
  match p with
  | Ret a => f a
  | Call c k => Call c (fun r => bind (k r) f)
  end.

Definition invoke (c : call) : Prog (answer c) := Call c Ret.

(** The remote side: a handler answers each call from its state [W]. *)
Definition Handler (W : Type) : Type := forall c : call, W -> answer c * W.

(** One call together with the answer it got. *)
Definition Entry : Type := { c : call & answer c }.

Record Outcome (W A : Type) : Type := mkOutcome {
  value : A;
  world : W;
  trace : list Entry
}.
Arguments mkOutcome {W A} _ _ _.
Arguments value {W A} _.
Arguments world {W A} _.
Arguments trace {W A} _.

Fixpoint run {W A} (h : Handler W) (p : Prog A) (w : W) : Outcome W A :=
  match p with
  | Ret a => mkOutcome a w []
  | Call c k =>
      let rw := h c w in
      let o := run h (k (fst rw)) (snd rw) in
      mkOutcome (value o) (world o) (existT c (fst rw) :: trace o)
  end.

(** The calls of a trace, without their answers. *)
Definition calls (tr : list Entry) : list call := map (@projT1 _ _) tr.

End Programs.

Arguments Prog {call} answer A.
Arguments Ret {call answer A} a.
Arguments Call {call answer A} c k.
Arguments Handler {call} answer W.
Arguments Entry {call} answer.
Arguments Outcome {call} answer W A.
Arguments mkOutcome {call answer W A} _ _ _.
Arguments value {call answer W A} _.
Arguments world {call answer W A} _.
Arguments trace {call answer W A} _.

Notation "x <- p ;; q" := (bind p (fun x => q))
  (at level 100, p at next level, right associativity).

(** Running one interface on top of another: every call of the upper
    interface is replaced by the program implementing it. *)
Fixpoint interp {call1 : Type} {answer1 : call1 -> Type}
    {call2 : Type} {answer2 : call2 -> Type} {A : Type}
    (impl : forall c : call1, Prog answer2 (answer1 c))
    (p : Prog answer1 A) : Prog answer2 A :=
  match p with
  | Ret a => Ret a
  | Call c k => r <- impl c ;; interp impl (k r)
  end.


(** ** Package [langfuse]: the API client *)
Module langfuse.

Module Project.
Record t : Type := mk {
  ID : string;
  Name : string;
  RetentionDays : Z;
  Metadata : gmap string string
}.
End Project.

Module ProjectApiKey.
Record t : Type := mk {
  ID : string;
  PublicKey : string;
  SecretKey : string
}.
End ProjectApiKey.

Module CreateProjectRequest.
Record t : Type := mk {
  Name : string;
  RetentionDays : Z;
  Metadata : gmap string string
}.
End CreateProjectRequest.

Module UpdateProjectRequest.
Record t : Type := mk {
  Name : string;
  RetentionDays : Z;
  Metadata : gmap string string
}.
End UpdateProjectRequest.

Module listProjectsResponse.
Record t : Type := mk { Projects : list Project.t }.
End listProjectsResponse.

Module listProjectApiKeysResponse.
Record t : Type := mk { ApiKeys : list ProjectApiKey.t }.
End listProjectApiKeysResponse.

Module deleteProjectResponse.
Record t : Type := mk { Success : bool; Message : string }.
End deleteProjectResponse.

Module deleteProjectApiKeyResponse.
Record t : Type := mk { Success : bool }.
End deleteProjectApiKeyResponse.

Module OrganizationMembership.
Record t : Type := mk {
  ID : string;
  Email : string;
  Role : string;
  Status : string;
  UserID : string;
  Username : string
}.
End OrganizationMembership.

(** One entry of the [emails] array of a SCIM user. *)
Module SCIMEmail.
Record t : Type := mk { Value : string; Primary : bool }.
End SCIMEmail.

Module SCIMUserRequest.
Record t : Type := mk {
  UserName : string;
  Emails : list SCIMEmail.t;
  Password : string;
  Active : bool
}.
End SCIMUserRequest.

Module SCIMUserResponse.
Record t : Type := mk {
  ID : string;
  UserName : string;
  Emails : list SCIMEmail.t;
  Active : bool
}.
End SCIMUserResponse.

Module UpdateMembershipRequest.
Record t : Type := mk {
  UserID : string;
  Email : string;
  Role : string
}.
End UpdateMembershipRequest.

Module listMembershipsResponse.
Record t : Type := mk { Memberships : list OrganizationMembership.t }.
End listMembershipsResponse.

Module removeMemberResponse.
Record t : Type := mk { Success : bool; Message : string }.
End removeMemberResponse.

(** The interface [OrganizationClient]: one call per method. *)
Module OrganizationClient.

Inductive call : Type :=
| ListProjects
| GetProject (projectID : string)
| CreateProject (request : CreateProjectRequest.t)
| UpdateProject (projectID : string) (request : UpdateProjectRequest.t)
| DeleteProject (projectID : string)
| GetProjectApiKey (projectID apiKeyID : string)
| CreateProjectApiKey (projectID : string)
| DeleteProjectApiKey (projectID apiKeyID : string)
| ListMemberships
| GetMembership (membershipID : string)
| UpdateMembership (membershipID : string) (request : UpdateMembershipRequest.t)
| RemoveMember (membershipID : string)
| CreateSCIMUser (request : SCIMUserRequest.t).

Definition answer (c : call) : Type :=
  match c with
  | ListProjects => result (list Project.t)
  | GetProject _ => result Project.t
  | CreateProject _ => result Project.t
  | UpdateProject _ _ => result Project.t
  | DeleteProject _ => option error
  | GetProjectApiKey _ _ => result ProjectApiKey.t
  | CreateProjectApiKey _ => result ProjectApiKey.t
  | DeleteProjectApiKey _ _ => option error
  | ListMemberships => result (list OrganizationMembership.t)
  | GetMembership _ => result OrganizationMembership.t
  | UpdateMembership _ _ => result OrganizationMembership.t
  | RemoveMember _ => option error
  | CreateSCIMUser _ => result SCIMUserResponse.t
  end.

End OrganizationClient.

(** The interface [ClientFactory], as the project and membership adapters
    use it: [factory.NewOrganizationClient(publicKey, privateKey).method(...)].
    Building the client reaches nothing remote; the call does, and it carries
    the credentials the client was built with. *)
Module ClientFactory.

Record call : Type := mkCall {
  publicKey : string;
  privateKey : string;
  method : OrganizationClient.call
}.

Definition answer (c : call) : Type := OrganizationClient.answer (method c).

(** [NewOrganizationClient publicKey privateKey m]: the program that calls
    method [m] on the client built for the key pair. *)
Definition NewOrganizationClient (publicKey privateKey : string)
    (m : OrganizationClient.call) : Prog answer (OrganizationClient.answer m) :=
  invoke (answer := answer) (mkCall publicKey privateKey m).

End ClientFactory.

(** The admin side, as the organization adapter uses it. *)
Module Organization.
Record t : Type := mk {
  ID : string;
  Name : string;
  Metadata : gmap string string
}.
End Organization.

Module CreateOrganizationRequest.
Record t : Type := mk { Name : string; Metadata : gmap string string }.
End CreateOrganizationRequest.

Module UpdateOrganizationRequest.
Record t : Type := mk { Name : string; Metadata : gmap string string }.
End UpdateOrganizationRequest.

Module AdminClient.

Inductive call : Type :=
| CreateOrganization (request : CreateOrganizationRequest.t)
| GetOrganization (orgID : string)
| UpdateOrganization (orgID : string) (request : UpdateOrganizationRequest.t)
| DeleteOrganization (orgID : string).

Definition answer (c : call) : Type :=
  match c with
  | CreateOrganization _ => result Organization.t
  | GetOrganization _ => result Organization.t
  | UpdateOrganization _ _ => result Organization.t
  | DeleteOrganization _ => option error
  end.

End AdminClient.

(** *** HTTP *)
Module http.

Definition MethodGet : string := "GET".
Definition MethodPost : string := "POST".
Definition MethodPut : string := "PUT".
Definition MethodDelete : string := "DELETE".

(** The value given as [body] to [makeRequest] ([nil] or a request struct). *)
Inductive Body : Type :=
| nil
| ofCreateProjectRequest (r : CreateProjectRequest.t)
| ofUpdateProjectRequest (r : UpdateProjectRequest.t)
| ofUpdateMembershipRequest (r : UpdateMembershipRequest.t)
| ofDeleteRequest (UserID : string)
| ofSCIMUserRequest (r : SCIMUserRequest.t).

Record Request : Type := mkRequest {
  Method : string;
  URL : string;
  body : Body;
  BasicAuth : option (string * string)
}.

Definition SetBasicAuth (req : Request) (username password : string) : Request :=
  mkRequest (Method req) (URL req) (body req) (Some (username, password)).

End http.

Section Transport.

(** [*http.Response] and [decodeResponse] are kept abstract: [Response] is
    whatever the transport returns and [D] decodes it into each of the result
    envelopes (or fails with an error). *)
Context {Response : Type}.

Record Decoder : Type := mkDecoder {
  decode_listProjectsResponse : Response -> result listProjectsResponse.t;
  decode_Project : Response -> result Project.t;
  decode_deleteProjectResponse : Response -> result deleteProjectResponse.t;
  decode_listProjectApiKeysResponse : Response -> result listProjectApiKeysResponse.t;
  decode_ProjectApiKey : Response -> result ProjectApiKey.t;
  decode_deleteProjectApiKeyResponse : Response -> result deleteProjectApiKeyResponse.t;
  decode_listMembershipsResponse : Response -> result listMembershipsResponse.t;
  decode_OrganizationMembership : Response -> result OrganizationMembership.t;
  decode_removeMemberResponse : Response -> result removeMemberResponse.t;
  decode_SCIMUserResponse : Response -> result SCIMUserResponse.t
}.

(** [httpClient.Do(req)]: the only call that leaves the process. *)
Definition Do_answer (req : http.Request) : Type := result Response.

Definition Do (req : http.Request) : Prog Do_answer (result Response) :=
  invoke (answer := Do_answer) req.

Context (D : Decoder).

(** [buildURL] joins the host and the API path.  It is defined with the
    shared HTTP helpers, outside the client's file, and is taken as a
    parameter. *)
Context (buildURL : string -> string -> string).

(** Modelled from the spec: [buildBaseRequest], which builds the request for
    a method, a URL and a JSON body ("authenticated HTTP with JSON bodies");
    the bodies are plain structs, so building it does not fail. *)
Definition buildBaseRequest (methodType url : string) (body : http.Body)
  : result http.Request :=
  Ok (http.mkRequest methodType url body None).

Record organizationClientImpl : Type := mkOrganizationClientImpl {
  host : string;
  publicKey : string;
  privateKey : string
}.

Definition NewOrganizationClient (host publicKey privateKey : string)
  : organizationClientImpl :=
  mkOrganizationClientImpl host publicKey privateKey.

(** Programs of the client: they only make HTTP requests. *)
Definition HTTP (A : Type) : Type := Prog Do_answer A.

Definition makeRequest (c : organizationClientImpl) (methodType apiPath : string)
    (body : http.Body) : HTTP (result Response) :=
  match buildBaseRequest methodType (buildURL (host c) apiPath) body with
  | Err err => Ret (Err err)
  | Ok req =>
      let req := http.SetBasicAuth req (publicKey c) (privateKey c) in
      resp <- Do req ;;
      match resp with
      | Err err => Ret (Err ("failed to make request: " +:+ err))
      | Ok resp => Ret (Ok resp)
      end
  end.

Definition ListProjects (c : organizationClientImpl) : HTTP (result (list Project.t)) :=
  resp <- makeRequest c http.MethodGet "api/public/organizations/projects" http.nil ;;
  match resp with
  | Err err => Ret (Err err)
  | Ok resp =>
      match decode_listProjectsResponse D resp with
      | Err err => Ret (Err err)
      | Ok listProjResp => Ret (Ok (listProjectsResponse.Projects listProjResp))
      end
  end.

Definition GetProject (c : organizationClientImpl) (projectID : string)
  : HTTP (result Project.t) :=
  resp <- makeRequest c http.MethodGet "api/public/organizations/projects" http.nil ;;
  match resp with
  | Err err => Ret (Err err)
  | Ok resp =>
      match decode_listProjectsResponse D resp with
      | Err err => Ret (Err err)
      | Ok listProjResp =>
          match find (fun proj => String.eqb (Project.ID proj) projectID)
                  (listProjectsResponse.Projects listProjResp) with
          | Some proj => Ret (Ok proj)
          | None => Ret (Err ("cannot find project with ID " +:+ projectID))
          end
      end
  end.

Definition CreateProject (c : organizationClientImpl) (request : CreateProjectRequest.t)
  : HTTP (result Project.t) :=
  resp <- makeRequest c http.MethodPost "api/public/projects"
            (http.ofCreateProjectRequest request) ;;
  match resp with
  | Err err => Ret (Err err)
  | Ok resp =>
      match decode_Project D resp with
      | Err err => Ret (Err err)
      | Ok proj => Ret (Ok proj)
      end
  end.

Definition UpdateProject (c : organizationClientImpl) (projectID : string)
    (request : UpdateProjectRequest.t) : HTTP (result Project.t) :=
  resp <- makeRequest c http.MethodPut ("api/public/projects/" +:+ projectID)
            (http.ofUpdateProjectRequest request) ;;
  match resp with
  | Err err => Ret (Err err)
  | Ok resp =>
      match decode_Project D resp with
      | Err err => Ret (Err err)
      | Ok proj => Ret (Ok proj)
      end
  end.

Definition DeleteProject (c : organizationClientImpl) (projectID : string)
  : HTTP (option error) :=
  resp <- makeRequest c http.MethodDelete ("api/public/projects/" +:+ projectID) http.nil ;;
  match resp with
  | Err err => Ret (Some err)
  | Ok resp =>
      match decode_deleteProjectResponse D resp with
      | Err err => Ret (Some err)
      | Ok deleteProjResp =>
          if negb (deleteProjectResponse.Success deleteProjResp) then
            Ret (Some ("failed to delete project with ID " +:+ projectID +:+ ": "
                       +:+ deleteProjectResponse.Message deleteProjResp))
          else Ret None
      end
  end.

Definition GetProjectApiKey (c : organizationClientImpl) (projectID apiKeyID : string)
  : HTTP (result ProjectApiKey.t) :=
  resp <- makeRequest c http.MethodGet
            ("api/public/projects/" +:+ projectID +:+ "/apiKeys") http.nil ;;
  match resp with
  | Err err => Ret (Err err)
  | Ok resp =>
      match decode_listProjectApiKeysResponse D resp with
      | Err err => Ret (Err err)
      | Ok listProjApiKeysResp =>
          match find (fun key => String.eqb (ProjectApiKey.ID key) apiKeyID)
                  (listProjectApiKeysResponse.ApiKeys listProjApiKeysResp) with
          | Some key => Ret (Ok key)
          | None => Ret (Err ("cannot find API key with ID " +:+ apiKeyID
                              +:+ " in project " +:+ projectID))
          end
      end
  end.

Definition CreateProjectApiKey (c : organizationClientImpl) (projectID : string)
  : HTTP (result ProjectApiKey.t) :=
  resp <- makeRequest c http.MethodPost
            ("api/public/projects/" +:+ projectID +:+ "/apiKeys") http.nil ;;
  match resp with
  | Err err => Ret (Err err)
  | Ok resp =>
      match decode_ProjectApiKey D resp with
      | Err err => Ret (Err err)
      | Ok apiKey => Ret (Ok apiKey)
      end
  end.

Definition DeleteProjectApiKey (c : organizationClientImpl) (projectID apiKeyID : string)
  : HTTP (option error) :=
  resp <- makeRequest c http.MethodDelete
            ("api/public/projects/" +:+ projectID +:+ "/apiKeys/" +:+ apiKeyID) http.nil ;;
  match resp with
  | Err err => Ret (Some err)
  | Ok resp =>
      match decode_deleteProjectApiKeyResponse D resp with
      | Err err => Ret (Some err)
      | Ok deleteProjApiKeyResp =>
          if negb (deleteProjectApiKeyResponse.Success deleteProjApiKeyResp) then
            Ret (Some ("failed to delete API key with ID " +:+ apiKeyID
                       +:+ " in project " +:+ projectID))
          else Ret None
      end
  end.

Definition ListMemberships (c : organizationClientImpl)
  : HTTP (result (list OrganizationMembership.t)) :=
  resp <- makeRequest c http.MethodGet "api/public/organizations/memberships" http.nil ;;
  match resp with
  | Err err => Ret (Err err)
  | Ok resp =>
      match decode_listMembershipsResponse D resp with
      | Err err => Ret (Err err)
      | Ok listMembershipsResp =>
          Ret (Ok (listMembershipsResponse.Memberships listMembershipsResp))
      end
  end.

Definition GetMembership (c : organizationClientImpl) (membershipID : string)
  : HTTP (result OrganizationMembership.t) :=
  memberships <- ListMemberships c ;;
  match memberships with
  | Err err => Ret (Err err)
  | Ok memberships =>
      (* The API may not return the membership ID field, so check both ID and UserID *)
      match find (fun membership =>
                    String.eqb (OrganizationMembership.ID membership) membershipID
                    || String.eqb (OrganizationMembership.UserID membership) membershipID)
              memberships with
      | Some membership => Ret (Ok membership)
      | None => Ret (Err ("cannot find membership with ID " +:+ membershipID))
      end
  end.

Definition UpdateMembership (c : organizationClientImpl) (membershipID : string)
    (request : UpdateMembershipRequest.t) : HTTP (result OrganizationMembership.t) :=
  (* Retrieve current membership to get the user ID *)
  currentMembership <- GetMembership c membershipID ;;
  match currentMembership with
  | Err err => Ret (Err ("failed to get current membership: " +:+ err))
  | Ok currentMembership =>
      (* Prepare update request with user ID *)
      let userIDToUpdate :=
        if String.eqb (UpdateMembershipRequest.UserID request) ""
        then OrganizationMembership.UserID currentMembership
        else UpdateMembershipRequest.UserID request in
      let updateRequest :=
        UpdateMembershipRequest.mk userIDToUpdate "" (UpdateMembershipRequest.Role request) in
      resp <- makeRequest c http.MethodPut "api/public/organizations/memberships"
                (http.ofUpdateMembershipRequest updateRequest) ;;
      match resp with
      | Err err => Ret (Err ("failed to update membership: " +:+ err))
      | Ok resp =>
          match decode_OrganizationMembership D resp with
          | Err err => Ret (Err ("failed to decode membership response: " +:+ err))
          | Ok updatedMembership =>
              (* The PUT response may not include the membership ID, so preserve
                 it from the original request *)
              let updatedMembership :=
                if String.eqb (OrganizationMembership.ID updatedMembership) ""
                then OrganizationMembership.mk membershipID
                       (OrganizationMembership.Email updatedMembership)
                       (OrganizationMembership.Role updatedMembership)
                       (OrganizationMembership.Status updatedMembership)
                       (OrganizationMembership.UserID updatedMembership)
                       (OrganizationMembership.Username updatedMembership)
                else updatedMembership in
              Ret (Ok updatedMembership)
          end
      end
  end.

Definition RemoveMember (c : organizationClientImpl) (membershipID : string)
  : HTTP (option error) :=
  (* DELETE endpoint requires userId in the request body *)
  let deleteRequest := http.ofDeleteRequest membershipID in
  resp <- makeRequest c http.MethodDelete "api/public/organizations/memberships"
            deleteRequest ;;
  match resp with
  | Err err => Ret (Some err)
  | Ok resp =>
      match decode_removeMemberResponse D resp with
      | Err err => Ret (Some err)
      | Ok removeMemberResp =>
          (* API returns success: false but with a success message, so we check
             the message too *)
          if negb (removeMemberResponse.Success removeMemberResp)
             && negb (strings.Contains
                        (strings.ToLower (removeMemberResponse.Message removeMemberResp))
                        "deleted")
             && negb (strings.Contains
                        (strings.ToLower (removeMemberResponse.Message removeMemberResp))
                        "removed")
          then Ret (Some ("failed to remove member with ID " +:+ membershipID +:+ ": "
                          +:+ removeMemberResponse.Message removeMemberResp))
          else Ret None
      end
  end.

Definition CreateSCIMUser (c : organizationClientImpl) (request : SCIMUserRequest.t)
  : HTTP (result SCIMUserResponse.t) :=
  (* Ensure Active is true if not explicitly set *)
  let request :=
    if negb (SCIMUserRequest.Active request)
    then SCIMUserRequest.mk (SCIMUserRequest.UserName request)
           (SCIMUserRequest.Emails request) (SCIMUserRequest.Password request) true
    else request in
  resp <- makeRequest c http.MethodPost "api/public/scim/Users"
            (http.ofSCIMUserRequest request) ;;
  match resp with
  | Err err => Ret (Err ("failed to create SCIM user: " +:+ err))
  | Ok resp =>
      match decode_SCIMUserResponse D resp with
      | Err err => Ret (Err ("failed to decode SCIM user response: " +:+ err))
      | Ok scimUser => Ret (Ok scimUser)
      end
  end.

(** [organizationClientImpl] implements [OrganizationClient]. *)
Definition organizationClientImpl_call (c : organizationClientImpl)
    (m : OrganizationClient.call) : HTTP (OrganizationClient.answer m) :=
  match m return HTTP (OrganizationClient.answer m) with
  | OrganizationClient.ListProjects => ListProjects c
  | OrganizationClient.GetProject projectID => GetProject c projectID
  | OrganizationClient.CreateProject request => CreateProject c request
  | OrganizationClient.UpdateProject projectID request => UpdateProject c projectID request
  | OrganizationClient.DeleteProject projectID => DeleteProject c projectID
  | OrganizationClient.GetProjectApiKey projectID apiKeyID =>
      GetProjectApiKey c projectID apiKeyID
  | OrganizationClient.CreateProjectApiKey projectID => CreateProjectApiKey c projectID
  | OrganizationClient.DeleteProjectApiKey projectID apiKeyID =>
      DeleteProjectApiKey c projectID apiKeyID
  | OrganizationClient.ListMemberships => ListMemberships c
  | OrganizationClient.GetMembership membershipID => GetMembership c membershipID
  | OrganizationClient.UpdateMembership membershipID request =>
      UpdateMembership c membershipID request
  | OrganizationClient.RemoveMember membershipID => RemoveMember c membershipID
  | OrganizationClient.CreateSCIMUser request => CreateSCIMUser c request
  end.

(** Modelled from the spec: the client factory's [NewOrganizationClient],
    which "constructs the appropriate gateway instance per-call" from the
    scoped key pair; the factory holds the provider-level host. *)
Definition clientFactoryImpl (host : string) (c : ClientFactory.call)
  : HTTP (ClientFactory.answer c) :=
  organizationClientImpl_call
    (NewOrganizationClient host (ClientFactory.publicKey c) (ClientFactory.privateKey c))
    (ClientFactory.method c).

End Transport.
Arguments Decoder Response : clear implicits.
Arguments Do_answer Response req : clear implicits.
Arguments HTTP Response A : clear implicits.

End langfuse.

(** ** Package [provider]: the resource adapters

    An operation takes the models the host decoded from the request
    ([req.Plan.Get], [req.Config.Get], [req.State.Get]: decoding belongs to the
    host's schema layer and adds no diagnostics here) and the response to fill
    in, and returns the response it leaves behind. *)
Module provider.

Import langfuse.

Module organizationMembershipResourceModel.
Record t : Type := mk {
  ID : types.String_;
  Email : types.String_;
  Role : types.String_;
  Status : types.String_;
  UserID : types.String_;
  Username : types.String_;
  OrganizationPublicKey : types.String_;
  OrganizationPrivateKey : types.String_
}.
End organizationMembershipResourceModel.

Module organizationMembershipResource.

Import organizationMembershipResourceModel.

Definition Model : Type := organizationMembershipResourceModel.t.
Definition Response : Type := resource.Response Model.

Definition validRoles : list string := ["OWNER"; "ADMIN"; "MEMBER"; "VIEWER"].

(** The loop over [validRoles] that sets [isValidRole]. *)
Definition isValidRole (role : string) : bool :=
  existsb (fun validRole => String.eqb role validRole) validRoles.

Definition invalidRoleDetail (role : string) : string :=
  "Role must be one of: " +:+ strings.Join validRoles ", " +:+ ". Got: " +:+ role.

(** The first membership of the slice satisfying [p] (the loops that keep a
    pointer to the first match and [break]). *)
Definition firstMembership (p : OrganizationMembership.t -> bool)
    (memberships : list OrganizationMembership.t) : option OrganizationMembership.t :=
  find p memberships.

Definition Create (plan : Model) (resp : Response) : Prog ClientFactory.answer Response :=
  if diag.HasError (resource.Diagnostics resp) then Ret resp else
  (* Validate role is one of the allowed values *)
  let role := types.ValueString (Role plan) in
  if negb (isValidRole role) then
    Ret (resource.AddError resp "Invalid Role" (invalidRoleDetail role))
  else
  let organizationClient :=
    ClientFactory.NewOrganizationClient
      (types.ValueString (OrganizationPublicKey plan))
      (types.ValueString (OrganizationPrivateKey plan)) in
  let email := types.ValueString (Email plan) in
  (* Check if the user already exists in the organization *)
  memberships <- organizationClient OrganizationClient.ListMemberships ;;
  match memberships with
  | Err err => Ret (resource.AddError resp "Error listing current memberships" err)
  | Ok memberships =>
  let existingMembership :=
    firstMembership (fun m => String.eqb (OrganizationMembership.Email m) email) memberships in
  match existingMembership with
  | None =>
      (* If user doesn't exist in organization, create them via SCIM *)
      let scimRequest :=
        SCIMUserRequest.mk email [SCIMEmail.mk email true] "" true in
      scimUser <- organizationClient (OrganizationClient.CreateSCIMUser scimRequest) ;;
      match scimUser with
      | Err err =>
          Ret (resource.AddError resp "Error creating user via SCIM"
                 ("Failed to create user with email " +:+ email +:+ ": " +:+ err
                  +:+ ". User may already exist in Langfuse system."))
      | Ok scimUser =>
      (* Refresh membership list to find the newly created user membership *)
      memberships <- organizationClient OrganizationClient.ListMemberships ;;
      match memberships with
      | Err err =>
          Ret (resource.AddError resp "Error listing memberships after SCIM user creation" err)
      | Ok memberships =>
      let newMembership :=
        firstMembership
          (fun m => String.eqb (OrganizationMembership.UserID m) (SCIMUserResponse.ID scimUser))
          memberships in
      match newMembership with
      | None =>
          Ret (resource.AddError resp "Error finding new membership"
                 ("User was created via SCIM but membership not found in organization. UserID: "
                  +:+ SCIMUserResponse.ID scimUser))
      | Some newMembership =>
      (* Now update their role via membership endpoint *)
      let updateRequest :=
        UpdateMembershipRequest.mk (SCIMUserResponse.ID scimUser) "" role in
      membership <- organizationClient
                      (OrganizationClient.UpdateMembership
                         (OrganizationMembership.ID newMembership) updateRequest) ;;
      match membership with
      | Err err => Ret (resource.AddError resp "Error updating membership role" err)
      | Ok membership =>
      (* The API may not return membership ID, so use UserID as the resource ID *)
      let membershipID :=
        if String.eqb (OrganizationMembership.ID membership) ""
        then OrganizationMembership.UserID membership
        else OrganizationMembership.ID membership in
      let plan :=
        mk (types.StringValue membershipID)
           (types.StringValue (OrganizationMembership.Email membership))
           (types.StringValue (OrganizationMembership.Role membership))
           (types.StringValue (OrganizationMembership.Status membership))
           (types.StringValue (OrganizationMembership.UserID membership))
           (types.StringValue (OrganizationMembership.Username membership))
           (OrganizationPublicKey plan) (OrganizationPrivateKey plan) in
      Ret (resource.Set_ resp plan)
      end end end end
  | Some existingMembership =>
      (* User already exists in organization, update their role *)
      let updateRequest :=
        UpdateMembershipRequest.mk (OrganizationMembership.UserID existingMembership) "" role in
      membership <- organizationClient
                      (OrganizationClient.UpdateMembership
                         (OrganizationMembership.ID existingMembership) updateRequest) ;;
      match membership with
      | Err err => Ret (resource.AddError resp "Error updating membership role" err)
      | Ok membership =>
      (* The API may not return membership ID, so use UserID as the resource ID *)
      let membershipID :=
        if String.eqb (OrganizationMembership.ID membership) ""
        then OrganizationMembership.UserID membership
        else OrganizationMembership.ID membership in
      let plan :=
        mk (types.StringValue membershipID)
           (types.StringValue (OrganizationMembership.Email membership))
           (types.StringValue (OrganizationMembership.Role membership))
           (types.StringValue (OrganizationMembership.Status membership))
           (types.StringValue (OrganizationMembership.UserID membership))
           (types.StringValue (OrganizationMembership.Username membership))
           (OrganizationPublicKey plan) (OrganizationPrivateKey plan) in
      Ret (resource.Set_ resp plan)
      end
  end end.

Definition Read (state : Model) (resp : Response) : Prog ClientFactory.answer Response :=
  if diag.HasError (resource.Diagnostics resp) then Ret resp else
  let organizationClient :=
    ClientFactory.NewOrganizationClient
      (types.ValueString (OrganizationPublicKey state))
      (types.ValueString (OrganizationPrivateKey state)) in
  membership <- organizationClient
                  (OrganizationClient.GetMembership (types.ValueString (ID state))) ;;
  match membership with
  | Err err =>
      if strings.Contains err "cannot find membership" then
        Ret (resource.RemoveResource resp)
      else Ret (resource.AddError resp "Error reading membership" err)
  | Ok membership =>
      (* The API may not return membership ID, so use UserID as the resource ID *)
      let id :=
        if negb (String.eqb (OrganizationMembership.ID membership) "")
        then types.StringValue (OrganizationMembership.ID membership)
        else types.StringValue (OrganizationMembership.UserID membership) in
      let state :=
        mk id
           (types.StringValue (OrganizationMembership.Email membership))
           (types.StringValue (OrganizationMembership.Role membership))
           (types.StringValue (OrganizationMembership.Status membership))
           (types.StringValue (OrganizationMembership.UserID membership))
           (types.StringValue (OrganizationMembership.Username membership))
           (OrganizationPublicKey state) (OrganizationPrivateKey state) in
      Ret (resource.Set_ resp state)
  end.

Definition Update (plan state : Model) (resp : Response)
  : Prog ClientFactory.answer Response :=
  if diag.HasError (resource.Diagnostics resp) then Ret resp else
  (* Validate role is one of the allowed values *)
  let role := types.ValueString (Role plan) in
  if negb (isValidRole role) then
    Ret (resource.AddError resp "Invalid Role" (invalidRoleDetail role))
  else
  let organizationClient :=
    ClientFactory.NewOrganizationClient
      (types.ValueString (OrganizationPublicKey state))
      (types.ValueString (OrganizationPrivateKey state)) in
  let updateRequest := UpdateMembershipRequest.mk "" "" role in
  membership <- organizationClient
                  (OrganizationClient.UpdateMembership
                     (types.ValueString (ID state)) updateRequest) ;;
  match membership with
  | Err err => Ret (resource.AddError resp "Error updating membership" err)
  | Ok membership =>
      (* The API may not return membership ID, so use UserID as the resource ID *)
      let membershipID :=
        if String.eqb (OrganizationMembership.ID membership) ""
        then OrganizationMembership.UserID membership
        else OrganizationMembership.ID membership in
      let plan :=
        mk (types.StringValue membershipID)
           (types.StringValue (OrganizationMembership.Email membership))
           (types.StringValue (OrganizationMembership.Role membership))
           (types.StringValue (OrganizationMembership.Status membership))
           (types.StringValue (OrganizationMembership.UserID membership))
           (types.StringValue (OrganizationMembership.Username membership))
           (OrganizationPublicKey plan) (OrganizationPrivateKey plan) in
      Ret (resource.Set_ resp plan)
  end.

Definition Delete (state : Model) (resp : Response) : Prog ClientFactory.answer Response :=
  if diag.HasError (resource.Diagnostics resp) then Ret resp else
  let organizationClient :=
    ClientFactory.NewOrganizationClient
      (types.ValueString (OrganizationPublicKey state))
      (types.ValueString (OrganizationPrivateKey state)) in
  err <- organizationClient
           (OrganizationClient.RemoveMember (types.ValueString (UserID state))) ;;
  match err with
  | Some err => Ret (resource.AddError resp "Error removing member" err)
  | None => Ret resp
  end.

(** [resource.ImportStatePassthroughID(ctx, path.Root("id"), req, resp)]:
    the attribute [id] of the response's state becomes [req.ID] (every other
    attribute keeps its value; in a null state they are null). *)
Definition ImportStatePassthroughID (reqID : string) (resp : Response) : Response :=
  let id := types.StringValue reqID in
  match resource.State resp with
  | Some m =>
      resource.Set_ resp
        (mk id (Email m) (Role m) (Status m) (UserID m) (Username m)
            (OrganizationPublicKey m) (OrganizationPrivateKey m))
  | None =>
      resource.Set_ resp
        (mk id types.StringNull types.StringNull types.StringNull types.StringNull
            types.StringNull types.StringNull types.StringNull)
  end.

Definition ImportState (reqID : string) (resp : Response)
  : Prog ClientFactory.answer Response :=
  Ret (ImportStatePassthroughID reqID resp).

End organizationMembershipResource.

Module projectResourceModel.
Record t : Type := mk {
  ID : types.String_;
  Name : types.String_;
  RetentionDays : types.Int32;
  Metadata : types.Map;
  OrganizationID : types.String_;
  OrganizationPublicKey : types.String_;
  OrganizationPrivateKey : types.String_
}.
End projectResourceModel.

Module projectResource.

Import projectResourceModel.

Definition Model : Type := projectResourceModel.t.
Definition Response : Type := resource.Response Model.

(** [make(map[string]string)] filled from the configured metadata when it
    is neither null nor unknown. *)
Definition configuredMetadata (m : types.Map) : gmap string string :=
  if negb (types.IsNull m) && negb (types.IsUnknown m) then types.ElementsAs m else ∅.

Definition Create (data : Model) (resp : Response) : Prog ClientFactory.answer Response :=
  if diag.HasError (resource.Diagnostics resp) then Ret resp else
  let metadata := configuredMetadata (Metadata data) in
  let organizationClient :=
    ClientFactory.NewOrganizationClient
      (types.ValueString (OrganizationPublicKey data))
      (types.ValueString (OrganizationPrivateKey data)) in
  project <- organizationClient
               (OrganizationClient.CreateProject
                  (CreateProjectRequest.mk (types.ValueString (Name data))
                     (types.ValueInt32 (RetentionDays data)) metadata)) ;;
  match project with
  | Err err => Ret (resource.AddError resp "Error creating project" err)
  | Ok project =>
      let metadataMap := types.metadataMap (Project.Metadata project) in
      Ret (resource.Set_ resp
             (mk (types.StringValue (Project.ID project))
                 (types.StringValue (Project.Name project))
                 (types.Int32Value (Project.RetentionDays project))
                 metadataMap
                 (types.StringValue (types.ValueString (OrganizationID data)))
                 (types.StringValue (types.ValueString (OrganizationPublicKey data)))
                 (types.StringValue (types.ValueString (OrganizationPrivateKey data)))))
  end.

Definition Read (data : Model) (resp : Response) : Prog ClientFactory.answer Response :=
  if diag.HasError (resource.Diagnostics resp) then Ret resp else
  let organizationClient :=
    ClientFactory.NewOrganizationClient
      (types.ValueString (OrganizationPublicKey data))
      (types.ValueString (OrganizationPrivateKey data)) in
  project <- organizationClient
               (OrganizationClient.GetProject (types.ValueString (ID data))) ;;
  match project with
  | Err err => Ret (resource.AddError resp "Error reading project" err)
  | Ok project =>
      let metadataMap := types.metadataMap (Project.Metadata project) in
      (* Note: retention_days is write-only in the Langfuse API and not
         returned in responses. *)
      Ret (resource.Set_ resp
             (mk (types.StringValue (Project.ID project))
                 (types.StringValue (Project.Name project))
                 (RetentionDays data)
                 metadataMap
                 (types.StringValue (types.ValueString (OrganizationID data)))
                 (types.StringValue (types.ValueString (OrganizationPublicKey data)))
                 (types.StringValue (types.ValueString (OrganizationPrivateKey data)))))
  end.

Definition Update (data currentState : Model) (resp : Response)
  : Prog ClientFactory.answer Response :=
  if diag.HasError (resource.Diagnostics resp) then Ret resp else
  (* Get ID from current state (ID is not in config during updates) *)
  let projectID := types.ValueString (ID currentState) in
  let metadata := configuredMetadata (Metadata data) in
  let organizationClient :=
    ClientFactory.NewOrganizationClient
      (types.ValueString (OrganizationPublicKey data))
      (types.ValueString (OrganizationPrivateKey data)) in
  let request :=
    UpdateProjectRequest.mk (types.ValueString (Name data))
      (types.ValueInt32 (RetentionDays data)) metadata in
  project <- organizationClient (OrganizationClient.UpdateProject projectID request) ;;
  match project with
  | Err err => Ret (resource.AddError resp "Error updating project" err)
  | Ok project =>
      let metadataMap := types.metadataMap (Project.Metadata project) in
      Ret (resource.Set_ resp
             (mk (types.StringValue (Project.ID project))
                 (types.StringValue (Project.Name project))
                 (RetentionDays data) (* Use from config, not API response *)
                 metadataMap
                 (types.StringValue (types.ValueString (OrganizationID data)))
                 (types.StringValue (types.ValueString (OrganizationPublicKey data)))
                 (types.StringValue (types.ValueString (OrganizationPrivateKey data)))))
  end.

Definition Delete (data : Model) (resp : Response) : Prog ClientFactory.answer Response :=
  if diag.HasError (resource.Diagnostics resp) then Ret resp else
  let organizationClient :=
    ClientFactory.NewOrganizationClient
      (types.ValueString (OrganizationPublicKey data))
      (types.ValueString (OrganizationPrivateKey data)) in
  err <- organizationClient
           (OrganizationClient.DeleteProject (types.ValueString (ID data))) ;;
  match err with
  | Some err => Ret (resource.AddError resp "Error deleting project" err)
  | None =>
      Ret (resource.Set_ resp
             (mk (types.StringValue "") (types.StringValue "") (types.Int32Value 0)
                 types.MapNull (types.StringValue "") (types.StringValue "")
                 (types.StringValue "")))
  end.

(** [resource.ImportStatePassthroughID(ctx, path.Root("id"), req, resp)]:
    the attribute [id] of the response's state becomes [req.ID] (every other
    attribute keeps its value; in a null state they are null). *)
Definition ImportStatePassthroughID (reqID : string) (resp : Response) : Response :=
  let id := types.StringValue reqID in
  match resource.State resp with
  | Some m =>
      resource.Set_ resp
        (mk id (Name m) (RetentionDays m) (Metadata m) (OrganizationID m)
            (OrganizationPublicKey m) (OrganizationPrivateKey m))
  | None =>
      resource.Set_ resp
        (mk id types.StringNull types.Int32Null types.MapNull types.StringNull
            types.StringNull types.StringNull)
  end.

Definition ImportState (reqID : string) (resp : Response)
  : Prog ClientFactory.answer Response :=
  (* Import format:
     project_id,organization_id,organization_public_key,organization_private_key *)
  let importParts := strings.Split reqID "," in
  match importParts with
  | [projectID; organizationID; organizationPublicKey; organizationPrivateKey] =>
      (* Get the project details using the provided organization credentials *)
      let organizationClient :=
        ClientFactory.NewOrganizationClient organizationPublicKey organizationPrivateKey in
      project <- organizationClient (OrganizationClient.GetProject projectID) ;;
      match project with
      | Err err =>
          Ret (resource.AddError resp "Error importing project"
                 ("Could not read project " +:+ projectID +:+ ": " +:+ err))
      | Ok project =>
          (* Convert metadata to the appropriate type; on this branch the
             diagnostics are tested again, and they still hold whatever the
             response came in with *)
          if (0 <? size (Project.Metadata project))%nat
             && diag.HasError (resource.Diagnostics resp) then Ret resp else
          let metadataMap := types.metadataMap (Project.Metadata project) in
          (* Set the imported state with all required information *)
          let resp :=
            resource.Set_ resp
              (mk (types.StringValue (Project.ID project))
                  (types.StringValue (Project.Name project))
                  (types.Int32Value 0) (* Default value since retention_days is
                                          write-only in Langfuse API *)
                  metadataMap
                  (types.StringValue organizationID)
                  (types.StringValue organizationPublicKey)
                  (types.StringValue organizationPrivateKey)) in
          (* Set the ID attribute explicitly to just the project ID (not the
             full import string) *)
          Ret (ImportStatePassthroughID projectID resp)
      end
  | _ =>
      (* len(importParts) != 4 *)
      Ret (resource.AddError resp "Invalid import format"
             "Import ID must be in format: project_id,organization_id,organization_public_key,organization_private_key")
  end.

End projectResource.

Module organizationResourceModel.
Record t : Type := mk {
  ID : types.String_;
  Name : types.String_;
  Metadata : types.Map
}.
End organizationResourceModel.

Module organizationResource.

Import organizationResourceModel.

Definition Model : Type := organizationResourceModel.t.
Definition Response : Type := resource.Response Model.

(** [r.AdminClient.method(...)] *)
Definition AdminClient (m : AdminClient.call) : Prog AdminClient.answer (AdminClient.answer m) :=
  invoke (answer := AdminClient.answer) m.

Definition Read (data : Model) (resp : Response) : Prog AdminClient.answer Response :=
  if diag.HasError (resource.Diagnostics resp) then Ret resp else
  org <- AdminClient (AdminClient.GetOrganization (types.ValueString (ID data))) ;;
  match org with
  | Err err => Ret (resource.AddError resp "Error reading organization" err)
  | Ok org =>
      let metadataMap := types.metadataMap (Organization.Metadata org) in
      Ret (resource.Set_ resp
             (mk (types.StringValue (Organization.ID org))
                 (types.StringValue (Organization.Name org))
                 metadataMap))
  end.

Definition Delete (data : Model) (resp : Response) : Prog AdminClient.answer Response :=
  if diag.HasError (resource.Diagnostics resp) then Ret resp else
  err <- AdminClient (AdminClient.DeleteOrganization (types.ValueString (ID data))) ;;
  let cleared :=
    mk (types.StringValue "") (types.StringValue "") types.MapNull in
  match err with
  | Some err =>
      (* Handle the case where organization has existing projects *)
      if strings.Contains err "Cannot delete organization with existing projects" then
        let resp :=
          resource.AddWarning resp "Organization deletion skipped"
            ("Organization still has existing projects. This is expected during test cleanup - "
             +:+ "the Docker environment cleanup will handle resource removal. Error: "
             +:+ err) in
        Ret (resource.Set_ resp cleared)
      else
        Ret (resource.AddError resp "Error deleting organization" err)
  | None => Ret (resource.Set_ resp cleared)
  end.

(** [make(map[string]string)] filled from the configured metadata when it
    is neither null nor unknown. *)
Definition configuredMetadata (m : types.Map) : gmap string string :=
  if negb (types.IsNull m) && negb (types.IsUnknown m) then types.ElementsAs m else ∅.

Definition Create (data : Model) (resp : Response) : Prog AdminClient.answer Response :=
  if diag.HasError (resource.Diagnostics resp) then Ret resp else
  let metadata := configuredMetadata (Metadata data) in
  org <- AdminClient
           (AdminClient.CreateOrganization
              (CreateOrganizationRequest.mk (types.ValueString (Name data)) metadata)) ;;
  match org with
  | Err err => Ret (resource.AddError resp "Error creating organization" err)
  | Ok org =>
      let metadataMap := types.metadataMap (Organization.Metadata org) in
      Ret (resource.Set_ resp
             (mk (types.StringValue (Organization.ID org))
                 (types.StringValue (Organization.Name org))
                 metadataMap))
  end.

Definition Update (data currentState : Model) (resp : Response)
  : Prog AdminClient.answer Response :=
  if diag.HasError (resource.Diagnostics resp) then Ret resp else
  (* Get ID from current state (ID is not in config during updates) *)
  let orgID := types.ValueString (ID currentState) in
  let metadata := configuredMetadata (Metadata data) in
  let request :=
    UpdateOrganizationRequest.mk (types.ValueString (Name data)) metadata in
  org <- AdminClient (AdminClient.UpdateOrganization orgID request) ;;
  match org with
  | Err err => Ret (resource.AddError resp "Error updating organization" err)
  | Ok org =>
      let metadataMap := types.metadataMap (Organization.Metadata org) in
      Ret (resource.Set_ resp
             (mk (types.StringValue (Organization.ID org))
                 (types.StringValue (Organization.Name org))
                 metadataMap))
  end.

(** [resource.ImportStatePassthroughID(ctx, path.Root("id"), req, resp)] *)
Definition ImportStatePassthroughID (reqID : string) (resp : Response) : Response :=
  let id := types.StringValue reqID in
  match resource.State resp with
  | Some m => resource.Set_ resp (mk id (Name m) (Metadata m))
  | None => resource.Set_ resp (mk id types.StringNull types.MapNull)
  end.

Definition ImportState (reqID : string) (resp : Response)
  : Prog AdminClient.answer Response :=
  (* Import by organization ID *)
  let orgID := reqID in
  (* Use the GetOrganization API to fetch the organization details *)
  org <- AdminClient (AdminClient.GetOrganization orgID) ;;
  match org with
  | Err err =>
      Ret (resource.AddError resp "Error importing organization"
             ("Could not read organization " +:+ orgID +:+ ": " +:+ err))
  | Ok org =>
      (* Convert metadata to the appropriate type; on this branch the
         diagnostics are tested again, and they still hold whatever the
         response came in with *)
      if (0 <? size (Organization.Metadata org))%nat
         && diag.HasError (resource.Diagnostics resp) then Ret resp else
      let metadataMap := types.metadataMap (Organization.Metadata org) in
      (* Set the imported state *)
      let resp :=
        resource.Set_ resp
          (mk (types.StringValue (Organization.ID org))
              (types.StringValue (Organization.Name org))
              metadataMap) in
      (* Set the ID attribute explicitly (this is a best practice for import) *)
      Ret (ImportStatePassthroughID reqID resp)
  end.

End organizationResource.

(** The provider: its configuration resolves the host and the admin key the
    client factory is built with. *)
Module langfuseProviderModel.
Record t : Type := mk {
  Host : types.String_;
  AdminAPIKey : types.String_
}.
End langfuseProviderModel.

Module langfuseProvider.

Import langfuseProviderModel.

(** The arguments [langfuse.NewClientFactory(host, apiKey)] is called with;
    the factory itself is defined outside the provider's file. *)
Record ClientFactoryData : Type := NewClientFactory {
  factoryHost : string;
  factoryAdminKey : string
}.

(** [resp.DataSourceData] and [resp.ResourceData] receive the same factory. *)
Record ConfigureResponse : Type := mkConfigureResponse {
  Diagnostics : diag.Diagnostics;
  DataSourceData : option ClientFactoryData;
  ResourceData : option ClientFactoryData
}.

(** [LANGFUSE_ADMIN_KEY] is [os.Getenv("LANGFUSE_ADMIN_KEY")], the empty
    string when the variable is not set. *)
Definition Configure (config : langfuseProviderModel.t) (LANGFUSE_ADMIN_KEY : string)
    (resp : ConfigureResponse) : ConfigureResponse :=
  if diag.HasError (Diagnostics resp) then resp else
  let host :=
    if negb (types.StringIsNull (Host config))
       && negb (types.StringIsUnknown (Host config))
       && negb (String.eqb (types.ValueString (Host config)) "")
    then types.ValueString (Host config)
    else "https://app.langfuse.com" in
  let apiKey :=
    if negb (types.StringIsNull (AdminAPIKey config))
       && negb (types.StringIsUnknown (AdminAPIKey config))
       && negb (String.eqb (types.ValueString (AdminAPIKey config)) "")
    then types.ValueString (AdminAPIKey config)
    else LANGFUSE_ADMIN_KEY in
  let clientFactory := NewClientFactory host apiKey in
  mkConfigureResponse (Diagnostics resp) (Some clientFactory) (Some clientFactory).

(** [Metadata] of the provider and of its resources: the type names. *)
Definition TypeName : string := "langfuse".

Definition resourceTypeName (ProviderTypeName suffix : string) : string :=
  ProviderTypeName +:+ suffix.

End langfuseProvider.

End provider.

(** ** Layers and observations *)

(** An implementation of an interface over a lower one, run against a
    handler of the lower one, is a handler of the upper interface. *)
Definition stack {call1 : Type} {answer1 : call1 -> Type}
    {call2 : Type} {answer2 : call2 -> Type} {W : Type}
    (impl : forall c : call1, Prog answer2 (answer1 c))
    (h : Handler answer2 W) : Handler answer1 W :=
  fun c w => let o := run h (impl c) w in (value o, world o).

Module observe.

Import langfuse.

(** What an entry of a client trace says, by the method called. *)
Definition failed (e : Entry ClientFactory.answer) : bool :=
  match e with
  | existT c r =>
      match ClientFactory.method c as m return OrganizationClient.answer m -> bool with
      | OrganizationClient.DeleteProject _
      | OrganizationClient.DeleteProjectApiKey _ _
      | OrganizationClient.RemoveMember _ => fun r => match r with Some _ => true | None => false end
      | OrganizationClient.ListProjects => fun r => is_Err r
      | OrganizationClient.GetProject _ => fun r => is_Err r
      | OrganizationClient.CreateProject _ => fun r => is_Err r
      | OrganizationClient.UpdateProject _ _ => fun r => is_Err r
      | OrganizationClient.GetProjectApiKey _ _ => fun r => is_Err r
      | OrganizationClient.CreateProjectApiKey _ => fun r => is_Err r
      | OrganizationClient.ListMemberships => fun r => is_Err r
      | OrganizationClient.GetMembership _ => fun r => is_Err r
      | OrganizationClient.UpdateMembership _ _ => fun r => is_Err r
      | OrganizationClient.CreateSCIMUser _ => fun r => is_Err r
      end r
  end.

(** The membership a call returned, when it is a call that returns one and
    it succeeded. *)
Definition membership (e : Entry ClientFactory.answer) : option OrganizationMembership.t :=
  match e with
  | existT c r =>
      match ClientFactory.method c as m
            return OrganizationClient.answer m -> option OrganizationMembership.t with
      | OrganizationClient.GetMembership _ => fun r => match r with Ok m => Some m | Err _ => None end
      | OrganizationClient.UpdateMembership _ _ =>
          fun r => match r with Ok m => Some m | Err _ => None end
      | _ => fun _ => None
      end r
  end.

(** The memberships a successful [ListMemberships] returned. *)
Definition memberships (e : Entry ClientFactory.answer)
  : option (list OrganizationMembership.t) :=
  match e with
  | existT c r =>
      match ClientFactory.method c as m
            return OrganizationClient.answer m -> option (list OrganizationMembership.t) with
      | OrganizationClient.ListMemberships => fun r => match r with Ok ms => Some ms | Err _ => None end
      | _ => fun _ => None
      end r
  end.

(** The user a successful [CreateSCIMUser] returned. *)
Definition scimUser (e : Entry ClientFactory.answer) : option SCIMUserResponse.t :=
  match e with
  | existT c r =>
      match ClientFactory.method c as m
            return OrganizationClient.answer m -> option SCIMUserResponse.t with
      | OrganizationClient.CreateSCIMUser _ => fun r => match r with Ok u => Some u | Err _ => None end
      | _ => fun _ => None
      end r
  end.

Definition isCreateSCIMUser (c : ClientFactory.call) : bool :=
  match ClientFactory.method c with
  | OrganizationClient.CreateSCIMUser _ => true
  | _ => false
  end.

Definition isUpdateMembership (c : ClientFactory.call) : bool :=
  match ClientFactory.method c with
  | OrganizationClient.UpdateMembership _ _ => true
  | _ => false
  end.

(** A create whose re-list after the user creation shows no membership of
    the new user: the trace is list, create user, list, and the last list
    has no entry with the created user's ID. *)
Definition relistMisses (tr : list (Entry ClientFactory.answer)) : bool :=
  match tr with
  | [_; e2; e3] =>
      match scimUser e2, memberships e3 with
      | Some u, Some ms =>
          negb (existsb (fun m => String.eqb (OrganizationMembership.UserID m)
                                    (SCIMUserResponse.ID u)) ms)
      | _, _ => false
      end
  | _ => false
  end.

(** The error a client method returned, if it returned one. *)
Definition failure (m : OrganizationClient.call)
  : OrganizationClient.answer m -> option error :=
  match m as m return OrganizationClient.answer m -> option error with
  | OrganizationClient.DeleteProject _
  | OrganizationClient.DeleteProjectApiKey _ _
  | OrganizationClient.RemoveMember _ => fun r => r
  | OrganizationClient.ListProjects => fun r => match r with Ok _ => None | Err e => Some e end
  | OrganizationClient.GetProject _ => fun r => match r with Ok _ => None | Err e => Some e end
  | OrganizationClient.CreateProject _ => fun r => match r with Ok _ => None | Err e => Some e end
  | OrganizationClient.UpdateProject _ _ =>
      fun r => match r with Ok _ => None | Err e => Some e end
  | OrganizationClient.GetProjectApiKey _ _ =>
      fun r => match r with Ok _ => None | Err e => Some e end
  | OrganizationClient.CreateProjectApiKey _ =>
      fun r => match r with Ok _ => None | Err e => Some e end
  | OrganizationClient.ListMemberships =>
      fun r => match r with Ok _ => None | Err e => Some e end
  | OrganizationClient.GetMembership _ =>
      fun r => match r with Ok _ => None | Err e => Some e end
  | OrganizationClient.UpdateMembership _ _ =>
      fun r => match r with Ok _ => None | Err e => Some e end
  | OrganizationClient.CreateSCIMUser _ =>
      fun r => match r with Ok _ => None | Err e => Some e end
  end.


(** HTTP requests by method. *)
Definition hasMethod (methodType : string) (req : http.Request) : bool :=
  String.eqb (http.Method req) methodType.

End observe.

(** The identifier resolution in the specification's words, to compare the
    adapters with: "primary_id if non-empty else secondary_id". *)
Definition resolveID (primary_id secondary_id : string) : string :=
  if String.eqb primary_id "" then secondary_id else primary_id.

(** Case-insensitive containment in the specification's words: some
    substring of [s] equals [word] up to the case of its letters. *)
Definition containsFold (s word : string) : Prop :=
  exists pre mid post,
    s = pre +:+ mid +:+ post /\ strings.ToLower mid = strings.ToLower word.

(** ** A scripted remote, for running the adapters on concrete inputs *)
Module fixture.

Import langfuse.

(** Decoded JSON bodies of the remote's responses. *)
Inductive Json : Type :=
| projects (l : list Project.t)
| memberships (l : list OrganizationMembership.t)
| membership (m : OrganizationMembership.t)
| removed (r : removeMemberResponse.t)
| scimUser (u : SCIMUserResponse.t).

Definition unexpected {A} : result A := Err "unexpected response body".

Definition decoder : Decoder Json :=
  mkDecoder
    (fun j => match j with projects l => Ok (listProjectsResponse.mk l) | _ => unexpected end)
    (fun _ => unexpected)
    (fun _ => unexpected)
    (fun _ => unexpected)
    (fun _ => unexpected)
    (fun _ => unexpected)
    (fun j => match j with memberships l => Ok (listMembershipsResponse.mk l) | _ => unexpected end)
    (fun j => match j with membership m => Ok m | _ => unexpected end)
    (fun j => match j with removed r => Ok r | _ => unexpected end)
    (fun j => match j with scimUser u => Ok u | _ => unexpected end).

Definition buildURL (host apiPath : string) : string := host +:+ "/" +:+ apiPath.

(** The remote answers the requests with the scripted responses, in order. *)
Definition scripted : Handler (Do_answer Json) (list (result Json)) :=
  fun _ script =>
    match script with
    | r :: script' => (r, script')
    | [] => (Err "connection refused", [])
    end.

(** The provider's stack over the scripted remote. *)
Definition remote : Handler ClientFactory.answer (list (result Json)) :=
  stack (clientFactoryImpl decoder buildURL "https://app.langfuse.com") scripted.

(** An admin client whose [DeleteOrganization] and [GetOrganization] fail
    with the given message. *)
Definition failingAdmin (message : string) : Handler AdminClient.answer unit :=
  fun c w =>
    match c return AdminClient.answer c * unit with
    | AdminClient.CreateOrganization _ => (Err message, w)
    | AdminClient.GetOrganization _ => (Err message, w)
    | AdminClient.UpdateOrganization _ _ => (Err message, w)
    | AdminClient.DeleteOrganization _ => (Some message, w)
    end.

Definition fresh {Model : Type} (state : option Model) : resource.Response Model :=
  resource.mkResponse [] state.

Definition alice (id role : string) : OrganizationMembership.t :=
  OrganizationMembership.mk id "alice@example.com" role "ACTIVE" "u-42" "alice".

Definition plan (role : string) : provider.organizationMembershipResourceModel.t :=
  provider.organizationMembershipResourceModel.mk
    types.StringUnknown (types.StringValue "alice@example.com") (types.StringValue role)
    types.StringUnknown types.StringUnknown types.StringUnknown
    (types.StringValue "pk-1234") (types.StringValue "sk-1234").

Definition record (id role : string) : provider.organizationMembershipResourceModel.t :=
  provider.organizationMembershipResourceModel.mk
    (types.StringValue id) (types.StringValue "alice@example.com") (types.StringValue role)
    (types.StringValue "ACTIVE") (types.StringValue "u-42") (types.StringValue "alice")
    (types.StringValue "pk-1234") (types.StringValue "sk-1234").

Definition project (retentionDays : Z) : provider.projectResourceModel.t :=
  provider.projectResourceModel.mk
    (types.StringValue "proj-123") (types.StringValue "test-project")
    (types.Int32Value retentionDays) types.MapNull (types.StringValue "org-123")
    (types.StringValue "pub-key") (types.StringValue "priv-key").

End fixture.

(** ** A scripted remote speaking every envelope of the API *)
Module wire.

Import langfuse.

(** Decoded JSON bodies, one per result envelope. *)
Inductive Body : Type :=
| projects (r : listProjectsResponse.t)
| project (p : Project.t)
| projectDeleted (r : deleteProjectResponse.t)
| apiKeys (r : listProjectApiKeysResponse.t)
| apiKey (k : ProjectApiKey.t)
| apiKeyDeleted (r : deleteProjectApiKeyResponse.t)
| memberships (r : listMembershipsResponse.t)
| membership (m : OrganizationMembership.t)
| memberRemoved (r : removeMemberResponse.t)
| scimUser (u : SCIMUserResponse.t).

Definition mismatch {A} : result A := Err "unexpected response body".

Definition decoder : Decoder Body :=
  mkDecoder
    (fun b => match b with projects r => Ok r | _ => mismatch end)
    (fun b => match b with project p => Ok p | _ => mismatch end)
    (fun b => match b with projectDeleted r => Ok r | _ => mismatch end)
    (fun b => match b with apiKeys r => Ok r | _ => mismatch end)
    (fun b => match b with apiKey k => Ok k | _ => mismatch end)
    (fun b => match b with apiKeyDeleted r => Ok r | _ => mismatch end)
    (fun b => match b with memberships r => Ok r | _ => mismatch end)
    (fun b => match b with membership m => Ok m | _ => mismatch end)
    (fun b => match b with memberRemoved r => Ok r | _ => mismatch end)
    (fun b => match b with scimUser u => Ok u | _ => mismatch end).

(** The remote answers the requests with the scripted responses, in order,
    and refuses the connection once the script is used up. *)
Definition scripted : Handler (Do_answer Body) (list (result Body)) :=
  fun _ script =>
    match script with
    | r :: script' => (r, script')
    | [] => (Err "connection refused", [])
    end.

Definition host : string := "https://langfuse.example.org".

Definition client : organizationClientImpl := NewOrganizationClient host "pk-1234" "sk-1234".

(** The provider's stack over the scripted remote. *)
Definition remote : Handler ClientFactory.answer (list (result Body)) :=
  stack (clientFactoryImpl decoder fixture.buildURL host) scripted.

(** An admin client that answers every call with the given organization. *)
Definition admin (org : Organization.t) : Handler AdminClient.answer unit :=
  fun c w =>
    match c return AdminClient.answer c * unit with
    | AdminClient.CreateOrganization _ => (Ok org, w)
    | AdminClient.GetOrganization _ => (Ok org, w)
    | AdminClient.UpdateOrganization _ _ => (Ok org, w)
    | AdminClient.DeleteOrganization _ => (None, w)
    end.

Definition acme : provider.organizationResourceModel.t :=
  provider.organizationResourceModel.mk (types.StringValue "org-123")
    (types.StringValue "Acme") types.MapNull.

End wire.

(** * Properties *)

Import langfuse provider.

(** ** Strings *)

Lemma append_nil (b : string) : "" +:+ b = b.
Proof. reflexivity. Qed.

Lemma append_cons (x : ascii) (a b : string) : String x a +:+ b = String x (a +:+ b).
Proof. reflexivity. Qed.

Ltac unfold_append := rewrite ?append_cons, ?append_nil in *.

Lemma append_assoc (a b c : string) : (a +:+ b) +:+ c = a +:+ b +:+ c.
Proof. induction a as [|x a IH]; unfold_append; [reflexivity | now rewrite IH]. Qed.

Lemma append_empty_r (a : string) : a +:+ "" = a.
Proof. induction a as [|x a IH]; unfold_append; [reflexivity | now rewrite IH]. Qed.

Lemma HasPrefix_spec (s p : string) :
  strings.HasPrefix s p = true <-> exists post, s = p +:+ post.
Proof.
  revert s. induction p as [|a p IH]; intros s; simpl.
  - split; [intros _; now exists s | reflexivity].
  - destruct s as [|b s]; simpl.
    + split; [discriminate | intros [post H]; discriminate].
    + rewrite andb_true_iff, Ascii.eqb_eq, IH. split.
      * intros [-> [post ->]]. now exists post.
      * intros [post H]. unfold_append. injection H as -> ->.
        split; [reflexivity | now exists post].
Qed.

Lemma Contains_spec (s sub : string) :
  strings.Contains s sub = true <-> exists pre post, s = pre +:+ sub +:+ post.
Proof.
  induction s as [|c s IH]; simpl.
  - rewrite orb_false_r, HasPrefix_spec. split.
    + intros [post H]. now exists "", post.
    + intros [pre [post H]]. destruct pre; unfold_append; [now exists post | discriminate].
  - rewrite orb_true_iff, HasPrefix_spec, IH. split.
    + intros [[post H] | [pre [post H]]].
      * now exists "", post.
      * exists (String c pre), post. unfold_append. now rewrite H.
    + intros [pre [post H]]. destruct pre as [|x pre]; unfold_append.
      * left. now exists post.
      * right. injection H as _ H. now exists pre, post.
Qed.

Lemma Contains_middle (pre sub post : string) :
  strings.Contains (pre +:+ sub +:+ post) sub = true.
Proof. apply Contains_spec. now exists pre, post. Qed.

Lemma Contains_suffix (pre sub : string) : strings.Contains (pre +:+ sub) sub = true.
Proof. apply Contains_spec. exists pre, "". now rewrite append_empty_r. Qed.

Lemma ToLower_append (a b : string) :
  strings.ToLower (a +:+ b) = strings.ToLower a +:+ strings.ToLower b.
Proof.
  induction a as [|x a IH]; unfold_append; simpl; unfold_append;
    [reflexivity | now rewrite IH].
Qed.

Lemma ToLower_split (s a b : string) :
  strings.ToLower s = a +:+ b ->
  exists a' b', s = a' +:+ b' /\ strings.ToLower a' = a /\ strings.ToLower b' = b.
Proof.
  revert s. induction a as [|x a IH]; intros s H; unfold_append.
  - now exists "", s.
  - destruct s as [|c s]; simpl in H; [discriminate |].
    injection H as Hx H. destruct (IH s H) as [a' [b' [-> [Ha Hb]]]].
    exists (String c a'), b'. unfold_append. simpl. now rewrite Hx, Ha.
Qed.

(** The provider's test [Contains (ToLower s) word], for a lower-case
    [word], is case-insensitive containment. *)
Lemma Contains_ToLower_spec (s word : string) :
  strings.ToLower word = word ->
  strings.Contains (strings.ToLower s) word = true <-> containsFold s word.
Proof.
  intros Hword. rewrite Contains_spec. unfold containsFold. rewrite Hword. split.
  - intros [pre [post H]].
    destruct (ToLower_split _ _ _ H) as [pre' [rest [-> [Hpre Hrest]]]].
    destruct (ToLower_split _ _ _ Hrest) as [mid [post' [-> [Hmid Hpost]]]].
    now exists pre', mid, post'.
  - intros [pre [mid [post [-> Hmid]]]].
    exists (strings.ToLower pre), (strings.ToLower post).
    now rewrite !ToLower_append, Hmid.
Qed.

Lemma Split_not_nil (s : string) (sep : ascii) : strings.Split s sep <> [].
Proof.
  destruct s as [|c s]; simpl; [discriminate |].
  destruct (Ascii.eqb c sep); [discriminate |].
  destruct (strings.Split s sep); discriminate.
Qed.

(** A split has one field more than the string has separators. *)
Lemma Split_length (s : string) (sep : ascii) :
  length (strings.Split s sep) = strings.Count s sep + 1.
Proof.
  induction s as [|c s IH]; simpl; [reflexivity |].
  destruct (Ascii.eqb c sep); simpl.
  - now rewrite IH.
  - destruct (strings.Split s sep) as [|field rest] eqn:E; simpl in *; lia.
Qed.

(** A field without the separator, followed by the separator, is the first
    field of the split. *)
Lemma Split_field (a rest : string) (sep : ascii) :
  strings.Contains a (String sep "") = false ->
  strings.Split (a +:+ String sep rest) sep = a :: strings.Split rest sep.
Proof.
  induction a as [|c a IH]; unfold_append; simpl; intros H.
  - now rewrite Ascii.eqb_refl.
  - apply orb_false_iff in H as [Hc Ha].
    rewrite andb_true_r in Hc. rewrite Ascii.eqb_sym in Hc. rewrite Hc.
    now rewrite (IH Ha).
Qed.

Lemma Split_last (a : string) (sep : ascii) :
  strings.Contains a (String sep "") = false ->
  strings.Split a sep = [a].
Proof.
  induction a as [|c a IH]; simpl; intros H; [reflexivity |].
  apply orb_false_iff in H as [Hc Ha].
  rewrite andb_true_r in Hc. rewrite Ascii.eqb_sym in Hc. rewrite Hc.
  now rewrite (IH Ha).
Qed.

(** The import identifier of a project splits back into its four fields. *)
Lemma Split_import_id (projectID organizationID publicKey privateKey : string) :
  strings.Contains projectID "," = false ->
  strings.Contains organizationID "," = false ->
  strings.Contains publicKey "," = false ->
  strings.Contains privateKey "," = false ->
  strings.Split
    (projectID +:+ "," +:+ organizationID +:+ "," +:+ publicKey +:+ "," +:+ privateKey) ","
  = [projectID; organizationID; publicKey; privateKey].
Proof.
  intros H1 H2 H3 H4. unfold_append.
  rewrite (Split_field _ _ _ H1), (Split_field _ _ _ H2), (Split_field _ _ _ H3).
  now rewrite (Split_last _ _ H4).
Qed.

(** ** Diagnostics *)

Lemma Diagnostic_eqb_eq (a b : diag.Diagnostic) :
  diag.Diagnostic_eqb a b = true -> a = b.
Proof.
  destruct a as [sa ua da], b as [sb ub db]. unfold diag.Diagnostic_eqb. simpl.
  rewrite !andb_true_iff, !String.eqb_eq. intros [[Hs ->] ->].
  destruct sa, sb; simpl in Hs; (reflexivity || discriminate).
Qed.

Lemma In_Append (diags : diag.Diagnostics) (d : diag.Diagnostic) :
  In d (diag.Append diags d).
Proof.
  unfold diag.Append. destruct (diag.Contains diags d) eqn:E.
  - unfold diag.Contains in E. apply existsb_exists in E as [x [Hx Hd]].
    apply Diagnostic_eqb_eq in Hd. now subst.
  - apply in_or_app. right. now left.
Qed.

Lemma HasError_In (diags : diag.Diagnostics) (d : diag.Diagnostic) :
  In d diags -> diag.severity d = diag.SeverityError -> diag.HasError diags = true.
Proof.
  intros Hin Hsev. apply existsb_exists. exists d. split; [assumption |].
  unfold diag.isError. now rewrite Hsev.
Qed.

Lemma HasError_AddError (diags : diag.Diagnostics) (summary detail : string) :
  diag.HasError (diag.AddError diags summary detail) = true.
Proof.
  apply HasError_In with (d := diag.mkDiagnostic diag.SeverityError summary detail);
    [apply In_Append | reflexivity].
Qed.

Lemma HasError_AddWarning (diags : diag.Diagnostics) (summary detail : string) :
  diag.HasError (diag.AddWarning diags summary detail) = diag.HasError diags.
Proof.
  unfold diag.AddWarning, diag.Append.
  destruct (diag.Contains diags _); [reflexivity |].
  unfold diag.HasError. rewrite existsb_app. simpl. now rewrite !orb_false_r.
Qed.

Lemma Contains_no_error (diags : diag.Diagnostics) (summary detail : string) :
  diag.HasError diags = false ->
  diag.Contains diags (diag.mkDiagnostic diag.SeverityError summary detail) = false.
Proof.
  intros Hne. destruct (diag.Contains diags _) eqn:E; [| reflexivity].
  unfold diag.Contains in E. apply existsb_exists in E as [x [Hx Hd]].
  apply Diagnostic_eqb_eq in Hd. subst x.
  now rewrite (HasError_In _ _ Hx eq_refl) in Hne.
Qed.

(** On a response without errors, [AddError] appends the error. *)
Lemma AddError_fresh {Model : Type} (resp : resource.Response Model) (summary detail : string) :
  diag.HasError (resource.Diagnostics resp) = false ->
  resource.AddError resp summary detail
  = resource.mkResponse
      (resource.Diagnostics resp ++ [diag.mkDiagnostic diag.SeverityError summary detail])
      (resource.State resp).
Proof.
  intros Hne. unfold resource.AddError, diag.AddError, diag.Append.
  now rewrite (Contains_no_error _ _ _ Hne).
Qed.

Lemma HasError_resource_AddError {Model : Type} (resp : resource.Response Model)
    (summary detail : string) :
  diag.HasError (resource.Diagnostics (resource.AddError resp summary detail)) = true.
Proof. apply HasError_AddError. Qed.

Lemma In_resource_AddError {Model : Type} (resp : resource.Response Model)
    (summary detail : string) :
  In (diag.mkDiagnostic diag.SeverityError summary detail)
     (resource.Diagnostics (resource.AddError resp summary detail)).
Proof. apply In_Append. Qed.

(** ** Running programs *)

Lemma run_bind {call : Type} {answer : call -> Type} {W A B : Type}
    (h : Handler answer W) (p : Prog answer A) (f : A -> Prog answer B) (w : W) :
  run h (x <- p ;; f x) w
  = let o1 := run h p w in
    let o2 := run h (f (value o1)) (world o1) in
    mkOutcome (value o2) (world o2) (trace o1 ++ trace o2).
Proof.
  revert w. induction p as [a | c k IH]; intros w; simpl.
  - now destruct (run h (f a) w).
  - now rewrite IH.
Qed.

(** Running the implementation in place of the calls and running against
    the implementation as a handler reach the same value and the same state
    of the remote. *)
Lemma run_interp {call1 : Type} {answer1 : call1 -> Type}
    {call2 : Type} {answer2 : call2 -> Type} {W A : Type}
    (impl : forall c : call1, Prog answer2 (answer1 c))
    (h : Handler answer2 W) (p : Prog answer1 A) (w : W) :
  value (run h (interp impl p) w) = value (run (stack impl h) p w)
  /\ world (run h (interp impl p) w) = world (run (stack impl h) p w).
Proof.
  revert w. induction p as [a | c k IH]; intros w; simpl; [now split |].
  rewrite run_bind. simpl. apply IH.
Qed.

(** Symbolic execution of a program against an arbitrary handler [h]: name
    the answer of each call as it is reached and split on its shape. *)
Ltac answer h :=
  match goal with
  | |- context [h ?c ?w] =>
      let r := fresh "r" in
      let w' := fresh "w" in
      let E := fresh "E" in
      destruct (h c w) as [r w'] eqn:E
  end.

Ltac exec h :=
  repeat first
    [ progress cbn -[String.eqb resource.AddError resource.AddWarning resource.Set_
                     resource.RemoveResource strings.Contains strings.ToLower] in *
    | answer h
    | match goal with
      | |- context [match ?x with Ok _ => _ | Err _ => _ end] => destruct x eqn:?
      | |- context [match ?x with Some _ => _ | None => _ end] => destruct x eqn:?
      end ].

(** ** Organization membership *)

Lemma find_none_existsb {A : Type} (p : A -> bool) (l : list A) :
  find p l = None -> existsb p l = false.
Proof.
  induction l as [|x l IH]; simpl; [reflexivity |].
  destruct (p x); [discriminate | exact IH].
Qed.

Lemma isValidRole_spec (role : string) :
  organizationMembershipResource.isValidRole role = true
  <-> In role ["OWNER"; "ADMIN"; "MEMBER"; "VIEWER"].
Proof.
  unfold organizationMembershipResource.isValidRole,
    organizationMembershipResource.validRoles.
  rewrite existsb_exists. split.
  - intros [x [Hx Heq]]. apply String.eqb_eq in Heq. now subst.
  - intros H. exists role. split; [assumption | apply String.eqb_refl].
Qed.

Section MembershipOverAnyClient.

Import organizationMembershipResource organizationMembershipResourceModel.

Context {W : Type} (h : Handler ClientFactory.answer W) (w : W).

(** C9.  Create and Update with a role outside OWNER, ADMIN, MEMBER, VIEWER
    are a plain return: they make no call at all, leave the state as it was,
    and add one error, "Invalid Role", whose detail names the allowed set in
    full and the rejected value. *)
Theorem invalid_role_rejected_locally (plan state : Model) (resp : Response) :
  diag.HasError (resource.Diagnostics resp) = false ->
  ~ In (types.ValueString (Role plan)) ["OWNER"; "ADMIN"; "MEMBER"; "VIEWER"] ->
  let role := types.ValueString (Role plan) in
  let detail := "Role must be one of: OWNER, ADMIN, MEMBER, VIEWER. Got: " +:+ role in
  let rejected :=
    resource.mkResponse
      (resource.Diagnostics resp ++ [diag.mkDiagnostic diag.SeverityError "Invalid Role" detail])
      (resource.State resp) in
  Create plan resp = Ret rejected
  /\ Update plan state resp = Ret rejected
  /\ trace (run h (Create plan resp) w) = []
  /\ trace (run h (Update plan state resp) w) = []
  /\ strings.Contains detail role = true
  /\ (forall allowed, In allowed validRoles -> strings.Contains detail allowed = true).
Proof.
  intros Hne Hrole role detail rejected.
  assert (Hv : isValidRole role = false).
  { destruct (isValidRole role) eqn:E; [| reflexivity].
    now apply isValidRole_spec in E. }
  assert (HC : Create plan resp = Ret rejected).
  { unfold Create. fold role. rewrite Hne, Hv. simpl.
    now rewrite (AddError_fresh _ _ _ Hne). }
  assert (HU : Update plan state resp = Ret rejected).
  { unfold Update. fold role. rewrite Hne, Hv. simpl.
    now rewrite (AddError_fresh _ _ _ Hne). }
  repeat split; try assumption.
  - now rewrite HC.
  - now rewrite HU.
  - apply Contains_suffix.
  - intros allowed Hin. apply Contains_spec.
    destruct Hin as [<- | [<- | [<- | [<- | []]]]].
    + now exists "Role must be one of: ", (", ADMIN, MEMBER, VIEWER. Got: " +:+ role).
    + now exists "Role must be one of: OWNER, ", (", MEMBER, VIEWER. Got: " +:+ role).
    + now exists "Role must be one of: OWNER, ADMIN, ", (", VIEWER. Got: " +:+ role).
    + now exists "Role must be one of: OWNER, ADMIN, MEMBER, ", (". Got: " +:+ role).
Qed.

(** C10.  Create is atomic on failure.  Whenever one of its remote calls
    returns an error (the first list, the user creation, the second list, the
    role update), or the second list shows no membership of the created user,
    Create ends with an error diagnostic and the state it was given, untouched.
    Otherwise, for a valid role, it ends without error and with a record. *)
Theorem Create_atomic_on_failure (plan : Model) (resp : Response) :
  diag.HasError (resource.Diagnostics resp) = false ->
  let o := run h (Create plan resp) w in
  (existsb observe.failed (trace o) = true \/ observe.relistMisses (trace o) = true ->
   diag.HasError (resource.Diagnostics (value o)) = true
   /\ resource.State (value o) = resource.State resp)
  /\ (existsb observe.failed (trace o) = false ->
      observe.relistMisses (trace o) = false ->
      isValidRole (types.ValueString (Role plan)) = true ->
      diag.HasError (resource.Diagnostics (value o)) = false
      /\ exists record, resource.State (value o) = Some record).
Proof.
  intros Hne. unfold Create, firstMembership. rewrite Hne.
  destruct (isValidRole (types.ValueString (Role plan))) eqn:Hv.
  - exec h; (split; [intros [Hf | Hm] | intros Hf Hm _]);
      try discriminate;
      try (split; [apply HasError_resource_AddError | reflexivity]);
      try (split; [assumption | eexists; reflexivity]).
    (* the second list shows no membership of the created user *)
    apply negb_false_iff in Hm.
    match goal with
    | H : find _ _ = None |- _ => rewrite (find_none_existsb _ _ H) in Hm
    end.
    discriminate.
  - simpl. split; [intros [Hf | Hm]; discriminate | intros _ _ Hc; discriminate].
Qed.

Lemma valid_role_is_known (v : types.String_) :
  isValidRole (types.ValueString v) = true -> v = types.StringValue (types.ValueString v).
Proof. destruct v; simpl; intros H; (discriminate || reflexivity). Qed.

(** C1 (as the code has it).  Create for an email that already has a
    membership makes exactly two client calls: the list, then one
    UpdateMembership on the existing membership, carrying its user ID and the
    declared role; it never calls CreateSCIMUser.  When the update succeeds the
    record's role is the role of the membership the remote returned, hence the
    declared role whenever the remote returns the role it was asked to set;
    when it fails no record is stored. *)
Theorem Create_existing_member_updates_role_once (plan : Model) (resp : Response)
    (memberships : list OrganizationMembership.t) (existing : OrganizationMembership.t) :
  diag.HasError (resource.Diagnostics resp) = false ->
  isValidRole (types.ValueString (Role plan)) = true ->
  let role := types.ValueString (Role plan) in
  let client :=
    ClientFactory.mkCall (types.ValueString (OrganizationPublicKey plan))
      (types.ValueString (OrganizationPrivateKey plan)) in
  let list := client OrganizationClient.ListMemberships in
  fst (h list w) = Ok memberships ->
  find (fun m => String.eqb (OrganizationMembership.Email m) (types.ValueString (Email plan)))
    memberships = Some existing ->
  let update :=
    client (OrganizationClient.UpdateMembership (OrganizationMembership.ID existing)
              (UpdateMembershipRequest.mk (OrganizationMembership.UserID existing) "" role)) in
  let o := run h (Create plan resp) w in
  calls (trace o) = [list; update]
  /\ List.filter observe.isCreateSCIMUser (calls (trace o)) = []
  /\ List.filter observe.isUpdateMembership (calls (trace o)) = [update]
  /\ (forall membership,
        fst (h update (snd (h list w))) = Ok membership ->
        diag.HasError (resource.Diagnostics (value o)) = false
        /\ exists record,
             resource.State (value o) = Some record
             /\ Role record = types.StringValue (OrganizationMembership.Role membership)
             /\ (OrganizationMembership.Role membership = role -> Role record = Role plan))
  /\ (forall err,
        fst (h update (snd (h list w))) = Err err ->
        diag.HasError (resource.Diagnostics (value o)) = true
        /\ resource.State (value o) = resource.State resp).
Proof.
  intros Hne Hv role client list Hlist Hfind update o.
  subst o. unfold Create, firstMembership. rewrite Hne, Hv.
  cbn -[String.eqb resource.AddError resource.Set_].
  fold role client list. destruct (h list w) as [r1 w1] eqn:E1.
  cbn [fst snd] in *. subst r1. fold role in Hfind |- *. rewrite Hfind.
  cbn -[String.eqb resource.AddError resource.Set_].
  fold role client update. destruct (h update w1) as [r2 w2] eqn:E2.
  cbn [fst snd].
  destruct r2 as [m | e]; cbn -[String.eqb resource.AddError resource.Set_];
    (do 3 (split; [reflexivity |])); split; intros x Hx;
    try discriminate; injection Hx as <-.
  - split; [assumption |].
    eexists. split; [reflexivity |]. split; [reflexivity |].
    simpl. intros ->. symmetry. now apply valid_role_is_known.
  - split; [apply HasError_resource_AddError | reflexivity].
Qed.


End MembershipOverAnyClient.

(** ** Project *)

Section ProjectOverAnyClient.

Import projectResource projectResourceModel.

Context {W : Type} (h : Handler ClientFactory.answer W) (w : W).

(** C3.  Read keeps the retention days of the record it was given, whatever
    the remote's read returns: a record with 30 days read against a remote
    project showing 0 days is refreshed with 30 days. *)
Theorem Read_preserves_retention_days (data : Model) (resp : Response) (project : Project.t) :
  diag.HasError (resource.Diagnostics resp) = false ->
  fst (h (ClientFactory.mkCall (types.ValueString (OrganizationPublicKey data))
            (types.ValueString (OrganizationPrivateKey data))
            (OrganizationClient.GetProject (types.ValueString (ID data)))) w) = Ok project ->
  let o := run h (Read data resp) w in
  diag.HasError (resource.Diagnostics (value o)) = false
  /\ exists record,
       resource.State (value o) = Some record
       /\ RetentionDays record = RetentionDays data
       /\ (RetentionDays data = types.Int32Value 30 ->
           Project.RetentionDays project = 0%Z ->
           RetentionDays record = types.Int32Value 30
           /\ RetentionDays record <> types.Int32Value (Project.RetentionDays project)).
Proof.
  intros Hne Hget o. subst o. unfold Read. rewrite Hne.
  cbn -[resource.AddError resource.Set_ types.metadataMap].
  destruct (h _ w) as [r w1]. cbn [fst snd] in *. subst r.
  cbn -[types.metadataMap]. split; [assumption |].
  eexists. split; [reflexivity |]. split; [reflexivity |].
  simpl. intros -> ->. split; [reflexivity | discriminate].
Qed.

(** C4.  ImportState splits the identifier at the commas.  Unless that gives
    exactly four fields it is a plain return (no call is made) adding the
    error "Invalid import format".  With four fields it makes one call,
    GetProject of the first field on the client built from the third and
    fourth; when that succeeds the imported record has retention days 0, the
    first field as ID and the other three fields as organization ID and keys;
    when it fails the state is left as it was, with an error. *)
Theorem ImportState_requires_four_fields (reqID : string) (resp : Response) :
  (length (strings.Split reqID ",") <> 4 ->
   let format :=
     "Import ID must be in format: project_id,organization_id,organization_public_key,organization_private_key" in
   let rejected := resource.AddError resp "Invalid import format" format in
   ImportState reqID resp = Ret rejected
   /\ trace (run h (ImportState reqID resp) w) = []
   /\ In (diag.mkDiagnostic diag.SeverityError "Invalid import format" format)
        (resource.Diagnostics rejected)
   /\ diag.HasError (resource.Diagnostics rejected) = true
   /\ resource.State rejected = resource.State resp)
  /\ (forall projectID organizationID publicKey privateKey,
        strings.Split reqID "," = [projectID; organizationID; publicKey; privateKey] ->
        let read :=
          ClientFactory.mkCall publicKey privateKey (OrganizationClient.GetProject projectID) in
        let o := run h (ImportState reqID resp) w in
        calls (trace o) = [read]
        /\ (forall project,
              fst (h read w) = Ok project ->
              diag.HasError (resource.Diagnostics resp) = false ->
              diag.HasError (resource.Diagnostics (value o)) = false
              /\ exists record,
                   resource.State (value o) = Some record
                   /\ RetentionDays record = types.Int32Value 0
                   /\ ID record = types.StringValue projectID
                   /\ Name record = types.StringValue (Project.Name project)
                   /\ OrganizationID record = types.StringValue organizationID
                   /\ OrganizationPublicKey record = types.StringValue publicKey
                   /\ OrganizationPrivateKey record = types.StringValue privateKey)
        /\ (forall err,
              fst (h read w) = Err err ->
              diag.HasError (resource.Diagnostics (value o)) = true
              /\ resource.State (value o) = resource.State resp)).
Proof.
  split.
  - intros Hlen format rejected.
    assert (HI : ImportState reqID resp = Ret rejected).
    { unfold ImportState.
      destruct (strings.Split reqID ",") as [|a [|b [|c [|d [|e l]]]]];
        try reflexivity.
      now contradiction Hlen. }
    split; [exact HI |]. split; [now rewrite HI |].
    split; [apply In_resource_AddError |].
    split; [apply HasError_resource_AddError | reflexivity].
  - intros projectID organizationID publicKey privateKey Hsplit read o.
    subst o. unfold ImportState. rewrite Hsplit.
    cbn -[resource.AddError resource.Set_ types.metadataMap Nat.ltb].
    fold read. destruct (h read w) as [r w1]. cbn [fst snd].
    destruct r as [project | err];
      cbn -[resource.AddError resource.Set_ types.metadataMap Nat.ltb].
    + split.
      { destruct ((0 <? size (Project.Metadata project))%nat
                  && diag.HasError (resource.Diagnostics resp)); reflexivity. }
      split; [| intros err Herr; discriminate].
      intros project' Hp Hne. injection Hp as <-. rewrite Hne, andb_false_r.
      cbn -[types.metadataMap]. split; [assumption |].
      eexists. split; [reflexivity |]. repeat split.
    + split; [reflexivity |]. split; [intros project Hp; discriminate |].
      intros err' _. split; [apply HasError_resource_AddError | reflexivity].
Qed.

End ProjectOverAnyClient.

(** ** Organization *)

Section OrganizationOverAnyAdminClient.

Import organizationResource organizationResourceModel.

Context {W : Type} (h : Handler AdminClient.answer W) (w : W).

(** C6.  When DeleteOrganization fails with a message containing "Cannot
    delete organization with existing projects", Delete adds a warning (no
    error) and still sets the state to the cleared record; with any other
    message it adds the error "Error deleting organization" carrying the
    message and leaves the state as it was. *)
Theorem Delete_with_existing_projects_warns (data : Model) (resp : Response) (err : error) :
  diag.HasError (resource.Diagnostics resp) = false ->
  fst (h (AdminClient.DeleteOrganization (types.ValueString (ID data))) w) = Some err ->
  let o := run h (Delete data resp) w in
  let has_projects :=
    exists pre post,
      err = pre +:+ "Cannot delete organization with existing projects" +:+ post in
  (has_projects ->
   diag.HasError (resource.Diagnostics (value o)) = false
   /\ (exists warning,
         In warning (resource.Diagnostics (value o))
         /\ diag.severity warning = diag.SeverityWarning
         /\ diag.Summary warning = "Organization deletion skipped"
         /\ strings.Contains (diag.Detail warning) err = true)
   /\ resource.State (value o)
      = Some (mk (types.StringValue "") (types.StringValue "") types.MapNull))
  /\ (~ has_projects ->
      diag.HasError (resource.Diagnostics (value o)) = true
      /\ In (diag.mkDiagnostic diag.SeverityError "Error deleting organization" err)
           (resource.Diagnostics (value o))
      /\ resource.State (value o) = resource.State resp).
Proof.
  intros Hne Hdel o has_projects. subst o has_projects. unfold Delete. rewrite Hne.
  cbn -[resource.AddError resource.AddWarning resource.Set_ strings.Contains].
  destruct (h _ w) as [r w1]. cbn [fst snd] in *. subst r.
  cbn -[resource.AddError resource.AddWarning resource.Set_ strings.Contains].
  rewrite <- Contains_spec.
  destruct (strings.Contains err _); split; intros Hc;
    try discriminate; try (now contradiction Hc).
  - cbn -[strings.Contains]. split; [now rewrite HasError_AddWarning |].
    split; [| reflexivity].
    eexists. split; [apply In_Append |].
    split; [reflexivity |]. split; [reflexivity |]. cbn [diag.Detail].
    rewrite <- append_assoc. apply Contains_suffix.
  - split; [apply HasError_resource_AddError |].
    split; [apply In_resource_AddError | reflexivity].
Qed.

End OrganizationOverAnyAdminClient.

(** ** The adapters over the HTTP client *)

(** The requests [makeRequest] builds, in normal form. *)
Ltac http_requests :=
  unfold http.SetBasicAuth, http.MethodGet, http.MethodPost, http.MethodPut,
    http.MethodDelete in *;
  cbn [http.Method http.URL http.body http.BasicAuth] in *.

Section OverHTTP.

Import organizationMembershipResource organizationMembershipResourceModel.

Context {R W : Type} (D : Decoder R) (buildURL : string -> string -> string)
  (host : string) (h : Handler (Do_answer R) W) (w : W).

(** The client's UpdateMembership returns the membership the remote sent in
    answer to the PUT, with the requested membership ID filled in when the
    answer has none. *)
Lemma UpdateMembership_fills_missing_id (c : organizationClientImpl)
    (membershipID : string) (request : UpdateMembershipRequest.t)
    (listed put : R) (memberships : list OrganizationMembership.t)
    (current updated : OrganizationMembership.t) :
  let url := buildURL (langfuse.host c) "api/public/organizations/memberships" in
  let auth := Some (langfuse.publicKey c, langfuse.privateKey c) in
  let list := http.mkRequest "GET" url http.nil auth in
  h list w = (Ok listed, w) ->
  decode_listMembershipsResponse D listed = Ok (listMembershipsResponse.mk memberships) ->
  find (fun m => String.eqb (OrganizationMembership.ID m) membershipID
                 || String.eqb (OrganizationMembership.UserID m) membershipID)
    memberships = Some current ->
  (forall body, fst (h (http.mkRequest "PUT" url body auth) w) = Ok put) ->
  decode_OrganizationMembership D put = Ok updated ->
  value (run h (UpdateMembership D buildURL c membershipID request) w)
  = Ok (if String.eqb (OrganizationMembership.ID updated) ""
        then OrganizationMembership.mk membershipID
               (OrganizationMembership.Email updated)
               (OrganizationMembership.Role updated)
               (OrganizationMembership.Status updated)
               (OrganizationMembership.UserID updated)
               (OrganizationMembership.Username updated)
        else updated).
Proof.
  intros url auth list Hlist Hdecode Hfind Hput Hupdated.
  unfold UpdateMembership, GetMembership, ListMemberships, makeRequest, buildBaseRequest.
  cbn -[String.eqb]. http_requests. fold url auth list. rewrite Hlist.
  cbn -[String.eqb]. rewrite Hdecode. cbn -[String.eqb]. rewrite Hfind.
  cbn -[String.eqb]. http_requests. fold url auth.
  match goal with
  | |- context [h (http.mkRequest "PUT" url ?body auth) w] =>
      pose proof (Hput body) as Hbody;
      destruct (h (http.mkRequest "PUT" url body auth) w) as [r2 w2]
  end.
  cbn [fst snd] in *. subst r2. cbn -[String.eqb]. rewrite Hupdated. reflexivity.
Qed.

(** Over the HTTP client, Create for an email that already has a membership
    sends no POST (no user is created) and at most one PUT, exactly one when
    it ends without error. *)
Lemma Create_existing_member_requests (plan : Model) (resp : Response)
    (listed : R) (memberships : list OrganizationMembership.t)
    (existing : OrganizationMembership.t) :
  diag.HasError (resource.Diagnostics resp) = false ->
  isValidRole (types.ValueString (Role plan)) = true ->
  let auth :=
    Some (types.ValueString (OrganizationPublicKey plan),
          types.ValueString (OrganizationPrivateKey plan)) in
  let url := buildURL host "api/public/organizations/memberships" in
  fst (h (http.mkRequest "GET" url http.nil auth) w) = Ok listed ->
  decode_listMembershipsResponse D listed = Ok (listMembershipsResponse.mk memberships) ->
  find (fun m => String.eqb (OrganizationMembership.Email m) (types.ValueString (Email plan)))
    memberships = Some existing ->
  let o := run h (interp (clientFactoryImpl D buildURL host) (Create plan resp)) w in
  List.filter (observe.hasMethod "POST") (calls (trace o)) = []
  /\ length (List.filter (observe.hasMethod "PUT") (calls (trace o))) <= 1
  /\ (diag.HasError (resource.Diagnostics (value o)) = false ->
      length (List.filter (observe.hasMethod "PUT") (calls (trace o))) = 1).
Proof.
  intros Hne Hv auth url Hlist Hdecode Hfind o. subst o.
  unfold Create, firstMembership. rewrite Hne, Hv.
  cbn -[String.eqb resource.AddError resource.Set_].
  http_requests. fold auth url.
  destruct (h (http.mkRequest "GET" url http.nil auth) w) as [r1 w1].
  cbn [fst snd] in *. subst r1.
  cbn -[String.eqb resource.AddError resource.Set_].
  rewrite Hdecode. cbn -[String.eqb resource.AddError resource.Set_].
  rewrite Hfind. cbn -[String.eqb resource.AddError resource.Set_].
  http_requests.
  repeat first
    [ progress cbn -[String.eqb resource.AddError resource.Set_]
    | progress http_requests
    | answer h
    | match goal with
      | |- context [match ?x with Ok _ => _ | Err _ => _ end] => destruct x eqn:?
      | |- context [match ?x with Some _ => _ | None => _ end] => destruct x eqn:?
      end ].
  all: repeat split; try reflexivity; try (cbn; lia).
  all: intros Herr; first
    [ reflexivity | rewrite HasError_resource_AddError in Herr; discriminate ].
Qed.

(** C5.  When the remote answers the membership DELETE with success=false
    and a message, RemoveMember returns no error if and only if the message
    contains "deleted" or "removed" up to letter case; then Delete leaves the
    response as it was.  Otherwise RemoveMember's error contains the message
    and Delete reports it as "Error removing member".  In particular "Member
    removed successfully" is a success. *)
Theorem Delete_tolerates_removed_message (state : Model) (resp : Response)
    (response : R) (message : string) :
  diag.HasError (resource.Diagnostics resp) = false ->
  let publicKey := types.ValueString (OrganizationPublicKey state) in
  let privateKey := types.ValueString (OrganizationPrivateKey state) in
  let userID := types.ValueString (UserID state) in
  let request :=
    http.mkRequest "DELETE" (buildURL host "api/public/organizations/memberships")
      (http.ofDeleteRequest userID) (Some (publicKey, privateKey)) in
  fst (h request w) = Ok response ->
  decode_removeMemberResponse D response = Ok (removeMemberResponse.mk false message) ->
  let client := NewOrganizationClient host publicKey privateKey in
  let err := value (run h (RemoveMember D buildURL client userID) w) in
  let o := run h (interp (clientFactoryImpl D buildURL host) (Delete state resp)) w in
  (err = None <-> containsFold message "deleted" \/ containsFold message "removed")
  /\ calls (trace o) = [request]
  /\ (err = None -> value o = resp)
  /\ (forall e,
        err = Some e ->
        strings.Contains e message = true
        /\ diag.HasError (resource.Diagnostics (value o)) = true
        /\ In (diag.mkDiagnostic diag.SeverityError "Error removing member" e)
             (resource.Diagnostics (value o))
        /\ resource.State (value o) = resource.State resp)
  /\ (message = "Member removed successfully" -> err = None).
Proof.
  intros Hne publicKey privateKey userID request Hdo Hdecode client err o.
  assert (Hspec :
    negb (strings.Contains (strings.ToLower message) "deleted")
    && negb (strings.Contains (strings.ToLower message) "removed") = false
    <-> containsFold message "deleted" \/ containsFold message "removed").
  { rewrite <- !Contains_ToLower_spec by reflexivity.
    destruct (strings.Contains (strings.ToLower message) "deleted"),
             (strings.Contains (strings.ToLower message) "removed");
      simpl; intuition discriminate. }
  subst err o. unfold Delete. rewrite Hne.
  cbn -[resource.AddError strings.Contains strings.ToLower].
  http_requests. fold publicKey privateKey userID request.
  destruct (h request w) as [r w1]. cbn [fst snd] in *. subst r.
  cbn -[resource.AddError strings.Contains strings.ToLower].
  rewrite Hdecode. cbn -[resource.AddError strings.Contains strings.ToLower].
  destruct (negb (strings.Contains (strings.ToLower message) "deleted")
            && negb (strings.Contains (strings.ToLower message) "removed")) eqn:Hm;
    cbn -[resource.AddError strings.Contains strings.ToLower].
  - split.
    { split; [discriminate |]. intros Hc. apply Hspec in Hc. discriminate. }
    split; [reflexivity |]. split; [discriminate |]. split.
    + intros e He. injection He as <-.
      split; [rewrite <- !append_assoc; apply Contains_suffix |].
      split; [apply HasError_resource_AddError |].
      split; [apply In_resource_AddError | reflexivity].
    + intros ->. vm_compute in Hm. discriminate.
  - split.
    { split; [intros _; now apply Hspec | reflexivity]. }
    split; [reflexivity |]. split; [reflexivity |].
    split; [intros e He; discriminate | reflexivity].
Qed.

(** C8 (as the code has it).  Update sends the adapter's request with the
    declared role and no user ID; the client first lists the memberships and
    looks the record's ID up among their IDs and user IDs.  When the lookup
    fails (the list fails, or has no such membership) no PUT is sent, Update
    ends with an error and the state is left as it was.  When it finds a
    membership, exactly one PUT follows, carrying that membership's user ID,
    the declared role and no email: its user ID is not empty exactly when the
    listed membership's user ID is not empty. *)
Theorem Update_sends_the_listed_user_id (plan state : Model) (resp : Response) :
  diag.HasError (resource.Diagnostics resp) = false ->
  isValidRole (types.ValueString (Role plan)) = true ->
  let role := types.ValueString (Role plan) in
  let membershipID := types.ValueString (ID state) in
  let auth :=
    Some (types.ValueString (OrganizationPublicKey state),
          types.ValueString (OrganizationPrivateKey state)) in
  let url := buildURL host "api/public/organizations/memberships" in
  let list := http.mkRequest "GET" url http.nil auth in
  let put userID :=
    http.mkRequest "PUT" url
      (http.ofUpdateMembershipRequest (UpdateMembershipRequest.mk userID "" role)) auth in
  let lookup :=
    match fst (h list w) with
    | Ok response =>
        match decode_listMembershipsResponse D response with
        | Ok listed =>
            find (fun m => String.eqb (OrganizationMembership.ID m) membershipID
                           || String.eqb (OrganizationMembership.UserID m) membershipID)
              (listMembershipsResponse.Memberships listed)
        | Err _ => None
        end
    | Err _ => None
    end in
  let o := run h (interp (clientFactoryImpl D buildURL host) (Update plan state resp)) w in
  match lookup with
  | Some current =>
      calls (trace o) = [list; put (OrganizationMembership.UserID current)]
      /\ (OrganizationMembership.UserID current <> "" ->
          forall request userID email role',
            In request (calls (trace o)) ->
            http.body request
            = http.ofUpdateMembershipRequest (UpdateMembershipRequest.mk userID email role') ->
            userID <> "" /\ email = "" /\ role' = role)
  | None =>
      calls (trace o) = [list]
      /\ diag.HasError (resource.Diagnostics (value o)) = true
      /\ resource.State (value o) = resource.State resp
  end.
Proof.
  intros Hne Hv role membershipID auth url list put lookup o.
  subst o lookup. unfold Update. rewrite Hne, Hv.
  cbn -[String.eqb resource.AddError resource.Set_].
  http_requests. fold role membershipID auth url list.
  destruct (h list w) as [r1 w1]. cbn [fst snd].
  destruct r1 as [response | err]; cbn -[String.eqb resource.AddError resource.Set_].
  2: { split; [reflexivity |]. split; [apply HasError_resource_AddError | reflexivity]. }
  destruct (decode_listMembershipsResponse D response) as [listed | err];
    cbn -[String.eqb resource.AddError resource.Set_].
  2: { split; [reflexivity |]. split; [apply HasError_resource_AddError | reflexivity]. }
  destruct (find _ (listMembershipsResponse.Memberships listed)) as [current |];
    cbn -[String.eqb resource.AddError resource.Set_].
  2: { split; [reflexivity |]. split; [apply HasError_resource_AddError | reflexivity]. }
  http_requests. fold role auth url.
  change (String.eqb "" "") with true. cbv iota.
  fold (put (OrganizationMembership.UserID current)).
  destruct (h (put _) w1) as [r2 w2]. cbn [fst snd].
  destruct r2 as [resp0 | err];
    cbn -[String.eqb resource.AddError resource.Set_];
    [destruct (decode_OrganizationMembership D resp0);
     cbn -[String.eqb resource.AddError resource.Set_] |].
  all: split; [reflexivity |].
  all: intros Hcurrent request userID email role' [<- | [<- | []]] Hbody;
    cbn in Hbody; try discriminate; injection Hbody as <- <- <-; now repeat split.
Qed.

End OverHTTP.

(** ** The adapters on concrete remotes *)

Import organizationMembershipResourceModel.

(** C2.  A read of a record whose object the remote no longer lists: the
    membership adapter drops the record without error, while the project
    adapter reports "Error reading project" and keeps the record, and the
    organization adapter reports "Error reading organization" and keeps it. *)
Theorem Read_of_missing_object :
  let gone := fixture.record "u-42" "ADMIN" in
  let m := run fixture.remote
             (organizationMembershipResource.Read gone (fixture.fresh (Some gone)))
             [Ok (fixture.memberships [])] in
  let p := run fixture.remote
             (projectResource.Read (fixture.project 30)
                (fixture.fresh (Some (fixture.project 30))))
             [Ok (fixture.projects [])] in
  let org :=
    organizationResourceModel.mk (types.StringValue "org-123")
      (types.StringValue "Acme") types.MapNull in
  let g := run (fixture.failingAdmin "cannot find organization with ID org-123")
             (organizationResource.Read org (fixture.fresh (Some org))) tt in
  value m = resource.mkResponse [] None
  /\ value p
     = resource.mkResponse
         [diag.mkDiagnostic diag.SeverityError "Error reading project"
            "cannot find project with ID proj-123"]
         (Some (fixture.project 30))
  /\ value g
     = resource.mkResponse
         [diag.mkDiagnostic diag.SeverityError "Error reading organization"
            "cannot find organization with ID org-123"]
         (Some org).
Proof. vm_compute. repeat split; reflexivity. Qed.

Lemma invalid_role_rejected_locally_witness :
  ~ In "SUPER_ADMIN" ["OWNER"; "ADMIN"; "MEMBER"; "VIEWER"]
  /\ organizationMembershipResource.Create (fixture.plan "SUPER_ADMIN") (fixture.fresh None)
     = Ret (resource.mkResponse
              [diag.mkDiagnostic diag.SeverityError "Invalid Role"
                 "Role must be one of: OWNER, ADMIN, MEMBER, VIEWER. Got: SUPER_ADMIN"]
              None).
Proof.
  assert (H : ~ In "SUPER_ADMIN" ["OWNER"; "ADMIN"; "MEMBER"; "VIEWER"]).
  { simpl. intros [H | [H | [H | [H | []]]]]; discriminate. }
  split; [exact H |].
  exact (proj1 (invalid_role_rejected_locally fixture.remote []
                  (fixture.plan "SUPER_ADMIN") (fixture.record "m-1" "MEMBER")
                  (fixture.fresh None) eq_refl H)).
Defined.

Lemma Create_atomic_on_failure_witness :
  let o := run fixture.remote
             (organizationMembershipResource.Create (fixture.plan "ADMIN") (fixture.fresh None))
             [Ok (fixture.memberships []); Err "connection reset"] in
  existsb observe.failed (trace o) = true
  /\ diag.HasError (resource.Diagnostics (value o)) = true
  /\ resource.State (value o) = None.
Proof.
  split; [reflexivity |].
  apply (proj1 (Create_atomic_on_failure fixture.remote
                  [Ok (fixture.memberships []); Err "connection reset"]
                  (fixture.plan "ADMIN") (fixture.fresh None) eq_refl)).
  left. reflexivity.
Defined.

Lemma Create_existing_member_updates_role_once_witness :
  let listed := [fixture.alice "m-1" "MEMBER"] in
  let o := run fixture.remote
             (organizationMembershipResource.Create (fixture.plan "ADMIN") (fixture.fresh None))
             [Ok (fixture.memberships listed); Ok (fixture.memberships listed);
              Ok (fixture.membership (fixture.alice "m-1" "ADMIN"))] in
  calls (trace o)
  = [ClientFactory.mkCall "pk-1234" "sk-1234" OrganizationClient.ListMemberships;
     ClientFactory.mkCall "pk-1234" "sk-1234"
       (OrganizationClient.UpdateMembership "m-1"
          (UpdateMembershipRequest.mk "u-42" "" "ADMIN"))]
  /\ resource.State (value o) = Some (fixture.record "m-1" "ADMIN").
Proof.
  pose proof
    (Create_existing_member_updates_role_once fixture.remote
       [Ok (fixture.memberships [fixture.alice "m-1" "MEMBER"]);
        Ok (fixture.memberships [fixture.alice "m-1" "MEMBER"]);
        Ok (fixture.membership (fixture.alice "m-1" "ADMIN"))]
       (fixture.plan "ADMIN") (fixture.fresh None)
       [fixture.alice "m-1" "MEMBER"] (fixture.alice "m-1" "MEMBER")
       eq_refl eq_refl eq_refl eq_refl) as [Hcalls _].
  split; [exact Hcalls | reflexivity].
Defined.

(** C1, as stated, fails: the remote answers the role update of an existing
    member with a membership in another role than the declared one, and that
    role, not the declared one, is stored. *)
Lemma Create_existing_member_stores_returned_role :
  let listed := [fixture.alice "m-1" "MEMBER"] in
  let o := run fixture.remote
             (organizationMembershipResource.Create (fixture.plan "ADMIN") (fixture.fresh None))
             [Ok (fixture.memberships listed); Ok (fixture.memberships listed);
              Ok (fixture.membership (fixture.alice "m-1" "VIEWER"))] in
  List.filter observe.isCreateSCIMUser (calls (trace o)) = []
  /\ length (List.filter observe.isUpdateMembership (calls (trace o))) = 1
  /\ resource.State (value o) = Some (fixture.record "m-1" "VIEWER")
  /\ Role (fixture.record "m-1" "VIEWER") <> Role (fixture.plan "ADMIN").
Proof. vm_compute. repeat split; try reflexivity. discriminate. Qed.


Lemma Read_preserves_retention_days_witness :
  let listed := Project.mk "proj-123" "test-project" 0 ∅ in
  let o := run fixture.remote
             (projectResource.Read (fixture.project 30)
                (fixture.fresh (Some (fixture.project 30))))
             [Ok (fixture.projects [listed])] in
  Project.RetentionDays listed = 0%Z
  /\ exists record,
       resource.State (value o) = Some record
       /\ projectResourceModel.RetentionDays record = types.Int32Value 30.
Proof.
  split; [reflexivity |].
  destruct (Read_preserves_retention_days fixture.remote
              [Ok (fixture.projects [Project.mk "proj-123" "test-project" 0 ∅])]
              (fixture.project 30) (fixture.fresh (Some (fixture.project 30)))
              (Project.mk "proj-123" "test-project" 0 ∅) eq_refl eq_refl)
    as [_ [record [Hstate [_ H30]]]].
  exists record. split; [exact Hstate |]. exact (proj1 (H30 eq_refl eq_refl)).
Defined.

Lemma ImportState_requires_four_fields_witness :
  let listed := Project.mk "proj-123" "Test Project" 0 ∅ in
  let o := run fixture.remote
             (projectResource.ImportState "proj-123,org-456,pk-789,sk-012" (fixture.fresh None))
             [Ok (fixture.projects [listed])] in
  length (strings.Split "just-project-id" ",") <> 4
  /\ trace (run fixture.remote
              (projectResource.ImportState "just-project-id" (fixture.fresh None))
              [Ok (fixture.projects [listed])]) = []
  /\ strings.Split "proj-123,org-456,pk-789,sk-012" ","
     = ["proj-123"; "org-456"; "pk-789"; "sk-012"]
  /\ calls (trace o)
     = [ClientFactory.mkCall "pk-789" "sk-012" (OrganizationClient.GetProject "proj-123")]
  /\ exists record,
       resource.State (value o) = Some record
       /\ projectResourceModel.RetentionDays record = types.Int32Value 0.
Proof.
  assert (Hlen : length (strings.Split "just-project-id" ",") <> 4) by discriminate.
  split; [exact Hlen |].
  destruct (ImportState_requires_four_fields fixture.remote
              [Ok (fixture.projects [Project.mk "proj-123" "Test Project" 0 ∅])]
              "just-project-id" (fixture.fresh None)) as [Hbad _].
  destruct (Hbad Hlen) as [_ [Htrace _]].
  split; [exact Htrace |].
  split; [reflexivity |].
  destruct (ImportState_requires_four_fields fixture.remote
              [Ok (fixture.projects [Project.mk "proj-123" "Test Project" 0 ∅])]
              "proj-123,org-456,pk-789,sk-012" (fixture.fresh None)) as [_ Hgood].
  destruct (Hgood "proj-123" "org-456" "pk-789" "sk-012" eq_refl) as [Hcalls [Hok _]].
  split; [exact Hcalls |].
  destruct (Hok (Project.mk "proj-123" "Test Project" 0 ∅) eq_refl eq_refl)
    as [_ [record [Hstate [Hdays _]]]].
  exists record. split; [exact Hstate | exact Hdays].
Defined.

Lemma Delete_with_existing_projects_warns_witness :
  let err := "failed to delete organization: Cannot delete organization with existing projects" in
  let org :=
    organizationResourceModel.mk (types.StringValue "org-123")
      (types.StringValue "Acme") types.MapNull in
  let o := run (fixture.failingAdmin err)
             (organizationResource.Delete org (fixture.fresh (Some org))) tt in
  diag.HasError (resource.Diagnostics (value o)) = false
  /\ (exists warning,
        In warning (resource.Diagnostics (value o))
        /\ diag.severity warning = diag.SeverityWarning
        /\ diag.Summary warning = "Organization deletion skipped"
        /\ strings.Contains (diag.Detail warning) err = true)
  /\ resource.State (value o)
     = Some (organizationResourceModel.mk (types.StringValue "") (types.StringValue "")
               types.MapNull).
Proof.
  apply (proj1 (Delete_with_existing_projects_warns
                  (fixture.failingAdmin
                     "failed to delete organization: Cannot delete organization with existing projects")
                  tt
                  (organizationResourceModel.mk (types.StringValue "org-123")
                     (types.StringValue "Acme") types.MapNull)
                  (fixture.fresh _) _ eq_refl eq_refl)).
  exists "failed to delete organization: ", "". reflexivity.
Defined.

Lemma Delete_tolerates_removed_message_witness :
  let member := fixture.record "u-42" "MEMBER" in
  let answer := removeMemberResponse.mk false "Member removed successfully" in
  let o := run fixture.scripted
             (interp (clientFactoryImpl fixture.decoder fixture.buildURL "https://app.langfuse.com")
                (organizationMembershipResource.Delete member (fixture.fresh (Some member))))
             [Ok (fixture.removed answer)] in
  containsFold "Member removed successfully" "removed"
  /\ value o = fixture.fresh (Some member).
Proof.
  assert (Hfold : containsFold "Member removed successfully" "removed").
  { exists "Member ", "removed", " successfully". split; reflexivity. }
  split; [exact Hfold |].
  destruct (Delete_tolerates_removed_message fixture.decoder fixture.buildURL
              "https://app.langfuse.com" fixture.scripted
              [Ok (fixture.removed (removeMemberResponse.mk false "Member removed successfully"))]
              (fixture.record "u-42" "MEMBER")
              (fixture.fresh (Some (fixture.record "u-42" "MEMBER")))
              (fixture.removed (removeMemberResponse.mk false "Member removed successfully"))
              "Member removed successfully" eq_refl eq_refl eq_refl)
    as [Hiff [_ [Hnone _]]].
  apply Hnone. apply Hiff. right. exact Hfold.
Defined.

Lemma Update_sends_the_listed_user_id_witness :
  let known := fixture.record "m-1" "MEMBER" in
  let url := fixture.buildURL "https://app.langfuse.com" "api/public/organizations/memberships" in
  let auth := Some ("pk-1234", "sk-1234") in
  let o := run fixture.scripted
             (interp (clientFactoryImpl fixture.decoder fixture.buildURL "https://app.langfuse.com")
                (organizationMembershipResource.Update (fixture.plan "ADMIN") known
                   (fixture.fresh (Some known))))
             [Ok (fixture.memberships [fixture.alice "m-1" "MEMBER"]);
              Ok (fixture.membership (fixture.alice "m-1" "ADMIN"))] in
  calls (trace o)
  = [http.mkRequest "GET" url http.nil auth;
     http.mkRequest "PUT" url
       (http.ofUpdateMembershipRequest (UpdateMembershipRequest.mk "u-42" "" "ADMIN")) auth].
Proof.
  exact (proj1 (Update_sends_the_listed_user_id fixture.decoder fixture.buildURL
                  "https://app.langfuse.com" fixture.scripted
                  [Ok (fixture.memberships [fixture.alice "m-1" "MEMBER"]);
                   Ok (fixture.membership (fixture.alice "m-1" "ADMIN"))]
                  (fixture.plan "ADMIN") (fixture.record "m-1" "MEMBER")
                  (fixture.fresh (Some (fixture.record "m-1" "MEMBER")))
                  eq_refl eq_refl)).
Defined.

(** C8, as stated, fails: the remote lists the membership without a user
    ID; the lookup finds it by its ID and the PUT is sent with an empty
    user ID. *)
Lemma Update_sends_an_empty_user_id :
  let known := fixture.record "m-1" "MEMBER" in
  let listed := OrganizationMembership.mk "m-1" "alice@example.com" "MEMBER" "ACTIVE" "" "alice" in
  let o := run fixture.scripted
             (interp (clientFactoryImpl fixture.decoder fixture.buildURL "https://app.langfuse.com")
                (organizationMembershipResource.Update (fixture.plan "ADMIN") known
                   (fixture.fresh (Some known))))
             [Ok (fixture.memberships [listed]);
              Ok (fixture.membership (fixture.alice "m-1" "ADMIN"))] in
  exists request,
    In request (calls (trace o))
    /\ http.Method request = "PUT"
    /\ http.body request
       = http.ofUpdateMembershipRequest (UpdateMembershipRequest.mk "" "" "ADMIN")
    /\ diag.HasError (resource.Diagnostics (value o)) = false.
Proof.
  eexists. split; [right; left; reflexivity |]. repeat split.
Qed.

(** ** Further properties of the API client *)

Lemma Contains_self (s : string) : strings.Contains s s = true.
Proof. apply Contains_spec. exists "", "". now rewrite append_empty_r. Qed.

Lemma find_none_all {A : Type} (p : A -> bool) (l : list A) :
  (forall x, In x l -> p x = false) -> find p l = None.
Proof.
  induction l as [|x l IH]; simpl; intros H; [reflexivity |].
  rewrite (H x (or_introl eq_refl)). apply IH. intros y Hy. apply H. now right.
Qed.

(** Symbolic execution of a client method against an arbitrary transport. *)
Ltac exec_http h :=
  repeat first
    [ progress cbn -[String.eqb strings.Contains strings.ToLower resource.AddError
                     resource.Set_ resource.RemoveResource]
    | progress http_requests
    | answer h
    | match goal with
      | |- context [match ?x with Ok _ => _ | Err _ => _ end] => destruct x eqn:?
      | |- context [match ?x with Some _ => _ | None => _ end] => destruct x eqn:?
      end ].

Section ClientOverHTTP.

Context {R W : Type} (D : Decoder R) (buildURL : string -> string -> string)
  (h : Handler (Do_answer R) W) (w : W).

(** X1.  Whatever method of the client is called and whatever the remote
    answers, every request the call sends carries the client's own key pair
    as basic-auth credentials and a URL built from the client's host. *)
Theorem every_request_carries_the_client_credentials
    (c : organizationClientImpl) (m : OrganizationClient.call) :
  Forall (fun req =>
            http.BasicAuth req = Some (langfuse.publicKey c, langfuse.privateKey c)
            /\ exists apiPath, http.URL req = buildURL (langfuse.host c) apiPath)
    (calls (trace (run h (organizationClientImpl_call D buildURL c m) w))).
Proof.
  destruct m;
    repeat first
      [ progress cbn -[String.eqb strings.Contains strings.ToLower]
      | progress http_requests
      | answer h
      | match goal with
        | |- context [match ?x with Ok _ => _ | Err _ => _ end] => destruct x eqn:?
        | |- context [match ?x with Some _ => _ | None => _ end] => destruct x eqn:?
        | |- context [if ?b then _ else _] => destruct b eqn:?
        end ].
  all: repeat constructor; eexists; reflexivity.
Qed.


(** X3.  When the transport refuses the request, the method returns an error
    (never a value), after that single request, and the error text contains
    "failed to make request: " followed by the transport's own message. *)
Theorem transport_error_is_returned (c : organizationClientImpl)
    (m : OrganizationClient.call) (err : error) :
  (forall req, fst (h req w) = Err err) ->
  let o := run h (organizationClientImpl_call D buildURL c m) w in
  length (trace o) = 1
  /\ exists e,
       observe.failure m (value o) = Some e
       /\ strings.Contains e ("failed to make request: " +:+ err) = true.
Proof.
  intros Hdown o. subst o.
  destruct m; cbn -[String.eqb strings.Contains strings.ToLower]; http_requests.
  all: match goal with
       | |- context [h ?req w] =>
           pose proof (Hdown req) as Hreq; destruct (h req w) as [r w1]
       end.
  all: cbn [fst snd] in *; subst r; cbn -[String.eqb strings.Contains strings.ToLower].
  all: split; [reflexivity |]; eexists; split; [reflexivity |].
  all: first [apply Contains_self | apply Contains_suffix].
Qed.

(** X4.  CreateSCIMUser sends one POST to the SCIM users endpoint.  The user
    in its body is always active, also when the caller's request says
    inactive; user name, emails and password are the caller's. *)
Theorem CreateSCIMUser_sends_an_active_user (c : organizationClientImpl)
    (request : SCIMUserRequest.t) :
  calls (trace (run h (CreateSCIMUser D buildURL c request) w))
  = [http.mkRequest "POST" (buildURL (langfuse.host c) "api/public/scim/Users")
       (http.ofSCIMUserRequest
          (SCIMUserRequest.mk (SCIMUserRequest.UserName request)
             (SCIMUserRequest.Emails request) (SCIMUserRequest.Password request) true))
       (Some (langfuse.publicKey c, langfuse.privateKey c))].
Proof.
  destruct request as [userName emails password active].
  destruct active; exec_http h; reflexivity.
Qed.

(** X5.  The identifier the adapters store for a listed membership can be
    looked up again: GetMembership of the resolved identifier (the ID, or the
    user ID when the ID is empty) of any membership of the list succeeds, with
    a membership of the list whose ID or user ID is that identifier. *)
Theorem GetMembership_finds_the_resolved_id (c : organizationClientImpl)
    (listed : R) (memberships : list OrganizationMembership.t)
    (m : OrganizationMembership.t) :
  let list :=
    http.mkRequest "GET" (buildURL (langfuse.host c) "api/public/organizations/memberships")
      http.nil (Some (langfuse.publicKey c, langfuse.privateKey c)) in
  fst (h list w) = Ok listed ->
  decode_listMembershipsResponse D listed = Ok (listMembershipsResponse.mk memberships) ->
  In m memberships ->
  let id := resolveID (OrganizationMembership.ID m) (OrganizationMembership.UserID m) in
  exists found,
    value (run h (GetMembership D buildURL c id) w) = Ok found
    /\ In found memberships
    /\ (OrganizationMembership.ID found = id \/ OrganizationMembership.UserID found = id).
Proof.
  intros list Hlist Hdecode Hin id.
  cbn -[String.eqb]. http_requests. fold list.
  destruct (h list w) as [r w1]. cbn [fst snd] in *. subst r.
  cbn -[String.eqb]. rewrite Hdecode. cbn -[String.eqb].
  destruct (find _ memberships) as [found |] eqn:Hfind.
  - apply find_some in Hfind as [Hfound Hmatch].
    exists found. split; [reflexivity |]. split; [assumption |].
    apply orb_true_iff in Hmatch as [Hm | Hm]; apply String.eqb_eq in Hm; auto.
  - apply find_none with (x := m) in Hfind; [| assumption].
    apply orb_false_iff in Hfind as [Hid Huser]. subst id. unfold resolveID in *.
    destruct (String.eqb (OrganizationMembership.ID m) "").
    + now rewrite String.eqb_refl in Huser.
    + now rewrite String.eqb_refl in Hid.
Qed.

(** X6.  UpdateMembership never hands back a membership without an ID when
    it was asked about a membership by a non-empty ID: an ID missing from the
    remote's answer is replaced by the requested one. *)
Theorem UpdateMembership_returns_an_identified_membership (c : organizationClientImpl)
    (membershipID : string) (request : UpdateMembershipRequest.t)
    (m : OrganizationMembership.t) :
  membershipID <> "" ->
  value (run h (UpdateMembership D buildURL c membershipID request) w) = Ok m ->
  OrganizationMembership.ID m <> ""
  /\ (OrganizationMembership.ID m = membershipID
      \/ exists put answered,
           In (existT put (Ok answered))
              (trace (run h (UpdateMembership D buildURL c membershipID request) w))
           /\ decode_OrganizationMembership D answered = Ok m).
Proof.
  intros Hid. exec_http h; intros Hm; try discriminate.
  injection Hm as <-.
  match goal with
  | |- context [String.eqb ?x ""] => destruct (String.eqb x "") eqn:Hempty
  end; cbn.
  - split; [assumption | now left].
  - split; [now apply String.eqb_neq in Hempty |].
    right. eexists _, _. split; [right; left; reflexivity | eassumption].
Qed.

End ClientOverHTTP.

(** ** Further properties of the adapters over the HTTP client *)

Section AdaptersOverHTTP.

Context {R W : Type} (D : Decoder R) (buildURL : string -> string -> string)
  (host : string) (h : Handler (Do_answer R) W) (w : W).

(** X7.  Membership Read over the HTTP client: when the remote's list is
    read and decoded and none of its memberships has the record's ID as its ID
    or user ID, Read sends that one GET and removes the record from the state
    without adding a diagnostic (the client's "cannot find membership" error is
    the one the adapter looks for). *)
Theorem Read_drops_an_unlisted_membership
    (state : organizationMembershipResource.Model)
    (resp : organizationMembershipResource.Response)
    (listed : R) (memberships : list OrganizationMembership.t) :
  diag.HasError (resource.Diagnostics resp) = false ->
  let id := types.ValueString (organizationMembershipResourceModel.ID state) in
  let list :=
    http.mkRequest "GET" (buildURL host "api/public/organizations/memberships") http.nil
      (Some (types.ValueString (organizationMembershipResourceModel.OrganizationPublicKey state),
             types.ValueString (organizationMembershipResourceModel.OrganizationPrivateKey state))) in
  fst (h list w) = Ok listed ->
  decode_listMembershipsResponse D listed = Ok (listMembershipsResponse.mk memberships) ->
  Forall (fun m => OrganizationMembership.ID m <> id
                   /\ OrganizationMembership.UserID m <> id) memberships ->
  let o := run h (interp (clientFactoryImpl D buildURL host)
                    (organizationMembershipResource.Read state resp)) w in
  calls (trace o) = [list]
  /\ value o = resource.mkResponse (resource.Diagnostics resp) None.
Proof.
  intros Hne id list Hlist Hdecode Hnone o. subst o.
  unfold organizationMembershipResource.Read. rewrite Hne.
  cbn -[String.eqb strings.Contains resource.AddError].
  http_requests. fold id list.
  destruct (h list w) as [r w1]. cbn [fst snd] in *. subst r.
  cbn -[String.eqb strings.Contains resource.AddError]. rewrite Hdecode.
  cbn -[String.eqb strings.Contains resource.AddError].
  rewrite find_none_all.
  - cbn -[String.eqb strings.Contains resource.AddError].
    replace (strings.Contains ("cannot find membership with ID " +:+ id)
               "cannot find membership") with true.
    + split; reflexivity.
    + symmetry. apply Contains_spec. now exists "", (" with ID " +:+ id).
  - intros m Hin. rewrite List.Forall_forall in Hnone. destruct (Hnone m Hin) as [Hid Huser].
    apply orb_false_iff. split; now apply String.eqb_neq.
Qed.

(** X8.  Project Delete over the HTTP client sends one DELETE for the
    record's project ID.  It trusts the remote's success flag alone: with
    success=true the state is set to the cleared record; with success=false it
    reports "Error deleting project", whatever the message says (a message
    such as "deleted" does not make it a success), with a detail containing
    the project ID and the remote's message, and leaves the state as it was. *)
Theorem Delete_project_trusts_the_success_flag
    (data : projectResource.Model) (resp : projectResource.Response)
    (response : R) (answered : deleteProjectResponse.t) :
  diag.HasError (resource.Diagnostics resp) = false ->
  let id := types.ValueString (projectResourceModel.ID data) in
  let request :=
    http.mkRequest "DELETE" (buildURL host ("api/public/projects/" +:+ id)) http.nil
      (Some (types.ValueString (projectResourceModel.OrganizationPublicKey data),
             types.ValueString (projectResourceModel.OrganizationPrivateKey data))) in
  fst (h request w) = Ok response ->
  decode_deleteProjectResponse D response = Ok answered ->
  let o := run h (interp (clientFactoryImpl D buildURL host)
                    (projectResource.Delete data resp)) w in
  calls (trace o) = [request]
  /\ if deleteProjectResponse.Success answered then
       value o
       = resource.mkResponse (resource.Diagnostics resp)
           (Some (projectResourceModel.mk (types.StringValue "") (types.StringValue "")
                    (types.Int32Value 0) types.MapNull (types.StringValue "")
                    (types.StringValue "") (types.StringValue "")))
     else
       resource.State (value o) = resource.State resp
       /\ exists detail,
            resource.Diagnostics (value o)
            = resource.Diagnostics resp
              ++ [diag.mkDiagnostic diag.SeverityError "Error deleting project" detail]
            /\ strings.Contains detail id = true
            /\ strings.Contains detail (deleteProjectResponse.Message answered) = true.
Proof.
  intros Hne id request Hdo Hdecode o. subst o.
  unfold projectResource.Delete. rewrite Hne.
  cbn -[String.eqb strings.Contains resource.AddError].
  http_requests. fold id request.
  destruct (h request w) as [r w1]. cbn [fst snd] in *. subst r.
  cbn -[String.eqb strings.Contains resource.AddError]. rewrite Hdecode.
  destruct answered as [success message].
  destruct success; cbn -[String.eqb strings.Contains resource.AddError];
    (split; [reflexivity |]); [reflexivity |].
  rewrite (AddError_fresh _ _ _ Hne). cbn -[strings.Contains].
  split; [reflexivity |]. eexists. split; [reflexivity |]. split.
  - apply Contains_spec. now exists "failed to delete project with ID ", (": " +:+ message).
  - rewrite <- !append_assoc. apply Contains_suffix.
Qed.

End AdaptersOverHTTP.

(** ** Further properties of the membership adapter *)

Section MembershipFurther.

Import organizationMembershipResource organizationMembershipResourceModel.

Context {W : Type} (h : Handler ClientFactory.answer W) (w : W).

(** X9.  Create for an email that is not yet listed, when the user creation
    and the second list succeed and the second list shows a membership of the
    created user: the calls are, in order, the list, one CreateSCIMUser (user
    name and single primary email are the declared email, active), the list
    again, and one UpdateMembership on the membership found, carrying the
    created user's ID and the declared role.  The record is built from the
    membership that update returns; if the update fails, its error is
    reported as "Error updating membership role". *)
Theorem Create_new_member_call_sequence (plan : Model) (resp : Response)
    (before after : list OrganizationMembership.t)
    (user : SCIMUserResponse.t) (created : OrganizationMembership.t) :
  diag.HasError (resource.Diagnostics resp) = false ->
  isValidRole (types.ValueString (Role plan)) = true ->
  let role := types.ValueString (Role plan) in
  let email := types.ValueString (Email plan) in
  let client :=
    ClientFactory.mkCall (types.ValueString (OrganizationPublicKey plan))
      (types.ValueString (OrganizationPrivateKey plan)) in
  let list := client OrganizationClient.ListMemberships in
  let scim :=
    client (OrganizationClient.CreateSCIMUser
              (SCIMUserRequest.mk email [SCIMEmail.mk email true] "" true)) in
  fst (h list w) = Ok before ->
  find (fun m => String.eqb (OrganizationMembership.Email m) email) before = None ->
  fst (h scim (snd (h list w))) = Ok user ->
  fst (h list (snd (h scim (snd (h list w))))) = Ok after ->
  find (fun m => String.eqb (OrganizationMembership.UserID m) (SCIMUserResponse.ID user))
    after = Some created ->
  let update :=
    client (OrganizationClient.UpdateMembership (OrganizationMembership.ID created)
              (UpdateMembershipRequest.mk (SCIMUserResponse.ID user) "" role)) in
  let o := run h (Create plan resp) w in
  calls (trace o) = [list; scim; list; update]
  /\ match last (trace o) with
     | Some entry =>
         match observe.membership entry with
         | Some membership =>
             value o
             = resource.mkResponse (resource.Diagnostics resp)
                 (Some (mk (types.StringValue
                              (resolveID (OrganizationMembership.ID membership)
                                 (OrganizationMembership.UserID membership)))
                           (types.StringValue (OrganizationMembership.Email membership))
                           (types.StringValue (OrganizationMembership.Role membership))
                           (types.StringValue (OrganizationMembership.Status membership))
                           (types.StringValue (OrganizationMembership.UserID membership))
                           (types.StringValue (OrganizationMembership.Username membership))
                           (OrganizationPublicKey plan) (OrganizationPrivateKey plan)))
         | None =>
             resource.State (value o) = resource.State resp
             /\ exists err,
                  resource.Diagnostics (value o)
                  = resource.Diagnostics resp
                    ++ [diag.mkDiagnostic diag.SeverityError
                          "Error updating membership role" err]
         end
     | None => False
     end.
Proof.
  intros Hne Hv role email client list scim H1 Hnew H2 H3 Hfound update o.
  subst o. unfold Create, firstMembership. rewrite Hne, Hv.
  cbn -[String.eqb resource.AddError resource.Set_].
  fold role email client list.
  destruct (h list w) as [r1 w1]. cbn [fst snd] in *. subst r1.
  rewrite Hnew. cbn -[String.eqb resource.AddError resource.Set_].
  fold email client scim.
  destruct (h scim w1) as [r2 w2]. cbn [fst snd] in *. subst r2.
  cbn -[String.eqb resource.AddError resource.Set_]. fold client list.
  destruct (h list w2) as [r3 w3]. cbn [fst snd] in *. subst r3.
  rewrite Hfound. cbn -[String.eqb resource.AddError resource.Set_].
  fold role client update.
  destruct (h update w3) as [r4 w4]. cbn [fst snd].
  destruct r4 as [membership | err];
    cbn -[String.eqb resource.AddError resource.Set_];
    (split; [reflexivity |]).
  - reflexivity.
  - rewrite (AddError_fresh _ _ _ Hne). split; [reflexivity |]. now exists err.
Qed.

(** X10.  When the user creation fails, Create stops after two calls (the
    list and the CreateSCIMUser), leaves the state as it was, and adds the
    error "Error creating user via SCIM", whose detail contains the declared
    email and the client's error. *)
Theorem Create_reports_failed_user_creation (plan : Model) (resp : Response)
    (before : list OrganizationMembership.t) (err : error) :
  diag.HasError (resource.Diagnostics resp) = false ->
  isValidRole (types.ValueString (Role plan)) = true ->
  let email := types.ValueString (Email plan) in
  let client :=
    ClientFactory.mkCall (types.ValueString (OrganizationPublicKey plan))
      (types.ValueString (OrganizationPrivateKey plan)) in
  let list := client OrganizationClient.ListMemberships in
  let scim :=
    client (OrganizationClient.CreateSCIMUser
              (SCIMUserRequest.mk email [SCIMEmail.mk email true] "" true)) in
  fst (h list w) = Ok before ->
  find (fun m => String.eqb (OrganizationMembership.Email m) email) before = None ->
  fst (h scim (snd (h list w))) = Err err ->
  let o := run h (Create plan resp) w in
  calls (trace o) = [list; scim]
  /\ resource.State (value o) = resource.State resp
  /\ exists detail,
       resource.Diagnostics (value o)
       = resource.Diagnostics resp
         ++ [diag.mkDiagnostic diag.SeverityError "Error creating user via SCIM" detail]
       /\ strings.Contains detail email = true
       /\ strings.Contains detail err = true.
Proof.
  intros Hne Hv email client list scim H1 Hnew H2 o.
  subst o. unfold Create, firstMembership. rewrite Hne, Hv.
  cbn -[String.eqb resource.AddError resource.Set_].
  fold email client list.
  destruct (h list w) as [r1 w1]. cbn [fst snd] in *. subst r1.
  rewrite Hnew. cbn -[String.eqb resource.AddError resource.Set_].
  fold email client scim.
  destruct (h scim w1) as [r2 w2]. cbn [fst snd] in *. subst r2.
  cbn -[String.eqb resource.AddError resource.Set_].
  rewrite (AddError_fresh _ _ _ Hne). cbn -[strings.Contains].
  split; [reflexivity |]. split; [reflexivity |].
  eexists. split; [reflexivity |]. split; apply Contains_spec.
  - now exists "Failed to create user with email ",
      (": " +:+ err +:+ ". User may already exist in Langfuse system.").
  - exists ("Failed to create user with email " +:+ email +:+ ": "),
      ". User may already exist in Langfuse system.".
    now rewrite !append_assoc.
Qed.

(** X11.  No membership operation takes the organization key pair from the
    remote: a record stored by Create or Update carries the key pair of the
    plan, and a record stored by Read the key pair of the prior state. *)
Theorem stored_record_keeps_the_key_pair (plan state : Model) (resp : Response) :
  diag.HasError (resource.Diagnostics resp) = false ->
  forall operation source,
    In (operation, source)
       [(Create plan resp, plan); (Read state resp, state); (Update plan state resp, plan)] ->
    let o := run h operation w in
    diag.HasError (resource.Diagnostics (value o)) = false ->
    forall record,
      resource.State (value o) = Some record ->
      OrganizationPublicKey record = OrganizationPublicKey source
      /\ OrganizationPrivateKey record = OrganizationPrivateKey source.
Proof.
  intros Hne operation source [Hop | [Hop | [Hop | []]]]; injection Hop as <- <-; cbv zeta.
  - unfold Create, firstMembership. rewrite Hne.
    destruct (isValidRole (types.ValueString (Role plan))) eqn:Hv;
      exec h; intros Hok record Hrecord;
      try (rewrite HasError_resource_AddError in Hok; discriminate).
    all: injection Hrecord as <-; split; reflexivity.
  - unfold Read. rewrite Hne. exec h.
    + intros _ record Hrecord. injection Hrecord as <-. split; reflexivity.
    + destruct (strings.Contains err "cannot find membership");
        simpl; intros Hok record Hrecord;
        [discriminate | rewrite HasError_AddError in Hok; discriminate].
  - unfold Update. rewrite Hne.
    destruct (isValidRole (types.ValueString (Role plan))) eqn:Hv;
      exec h; intros Hok record Hrecord;
      try (rewrite HasError_resource_AddError in Hok; discriminate).
    injection Hrecord as <-. split; reflexivity.
Qed.

(** X12.  Membership Delete makes one call, RemoveMember with the record's
    user ID (not its ID), on the client of the record's key pair.  It never
    writes the state; it adds the error "Error removing member" exactly when
    the client returned an error. *)
Theorem Delete_removes_by_user_id (state : Model) (resp : Response) :
  diag.HasError (resource.Diagnostics resp) = false ->
  let remove :=
    ClientFactory.mkCall (types.ValueString (OrganizationPublicKey state))
      (types.ValueString (OrganizationPrivateKey state))
      (OrganizationClient.RemoveMember (types.ValueString (UserID state))) in
  let o := run h (Delete state resp) w in
  calls (trace o) = [remove]
  /\ resource.State (value o) = resource.State resp
  /\ match fst (h remove w) with
     | Some err =>
         resource.Diagnostics (value o)
         = resource.Diagnostics resp
           ++ [diag.mkDiagnostic diag.SeverityError "Error removing member" err]
     | None => value o = resp
     end.
Proof.
  intros Hne remove o. subst o. unfold Delete. rewrite Hne.
  cbn -[resource.AddError]. fold remove.
  destruct (h remove w) as [r w1]. cbn [fst snd].
  destruct r as [err |]; cbn -[resource.AddError];
    (split; [reflexivity |]); (split; [reflexivity |]); [| reflexivity].
  now rewrite (AddError_fresh _ _ _ Hne).
Qed.

(** X13.  Import of a membership makes no call and stores a record holding
    only the given identifier; the key pair is null in it.  The Read that
    follows therefore looks the identifier up on a client built with an empty
    public and private key. *)
Theorem Read_after_ImportState_has_no_keys (reqID : string) (diags : diag.Diagnostics) :
  diag.HasError diags = false ->
  exists imported,
    ImportState reqID (resource.mkResponse diags None)
    = Ret (resource.mkResponse diags (Some imported))
    /\ ID imported = types.StringValue reqID
    /\ OrganizationPublicKey imported = types.StringNull
    /\ OrganizationPrivateKey imported = types.StringNull
    /\ calls (trace (run h (Read imported (resource.mkResponse diags (Some imported))) w))
       = [ClientFactory.mkCall "" "" (OrganizationClient.GetMembership reqID)].
Proof.
  intros Hne. eexists. split; [reflexivity |]. do 3 (split; [reflexivity |]).
  unfold Read. cbn [resource.Diagnostics]. rewrite Hne. exec h; [reflexivity |].
  match goal with
  | |- context [strings.Contains ?e "cannot find membership"] =>
      now destruct (strings.Contains e "cannot find membership")
  end.
Qed.

End MembershipFurther.

(** ** Further properties of the project adapter *)

(** Joining the fields of a split with the separator gives the string back. *)
Lemma Join_Split (s : string) (sep : ascii) :
  strings.Join (strings.Split s sep) (String sep "") = s.
Proof.
  induction s as [|c s IH]; [reflexivity |].
  cbn [strings.Split]. destruct (Ascii.eqb c sep) eqn:Hc.
  - apply Ascii.eqb_eq in Hc. subst c.
    destruct (strings.Split s sep) as [|field rest] eqn:Hs.
    + now apply Split_not_nil in Hs.
    + cbn [strings.Join]. cbn [strings.Join] in IH. unfold_append. now rewrite IH.
  - destruct (strings.Split s sep) as [|field rest] eqn:Hs.
    + now apply Split_not_nil in Hs.
    + destruct rest as [|next rest]; cbn [strings.Join] in *; unfold_append;
        now rewrite IH.
Qed.

(** No field of a split contains the separator. *)
Lemma Split_fields_clean (s : string) (sep : ascii) :
  Forall (fun field => strings.Contains field (String sep "") = false) (strings.Split s sep).
Proof.
  induction s as [|c s IH]; cbn [strings.Split].
  - repeat constructor.
  - destruct (Ascii.eqb c sep) eqn:Hc.
    + constructor; [reflexivity | exact IH].
    + destruct (strings.Split s sep) as [|field rest] eqn:Hs.
      * now apply Split_not_nil in Hs.
      * inversion IH as [|? ? Hfield Hrest]; subst. constructor; [| exact Hrest].
        simpl. rewrite Ascii.eqb_sym, Hc. simpl. exact Hfield.
Qed.

Lemma metadataMap_round_trip (m : gmap string string) :
  types.ElementsAs (types.metadataMap m) = m.
Proof.
  unfold types.metadataMap. destruct (0 <? size m)%nat eqn:Hsize; [reflexivity |].
  apply Nat.ltb_ge in Hsize. simpl. symmetry. apply map_size_empty_iff. lia.
Qed.

Section ProjectFurther.

Import projectResource projectResourceModel.

Context {W : Type} (h : Handler ClientFactory.answer W) (w : W).

(** X14.  ImportState accepts exactly the identifiers with three commas.
    With any other number of commas it is the plain return that adds "Invalid
    import format".  With three, the identifier is the comma-joined four
    fields of its split, none of which contains a comma, and the one call made
    is GetProject of the first field on the client built from the third and
    fourth. *)
Theorem ImportState_accepts_exactly_three_commas (reqID : string) (resp : Response) :
  (strings.Count reqID "," <> 3 ->
   ImportState reqID resp
   = Ret (resource.AddError resp "Invalid import format"
            "Import ID must be in format: project_id,organization_id,organization_public_key,organization_private_key"))
  /\ (strings.Count reqID "," = 3 ->
      exists projectID organizationID publicKey privateKey,
        reqID = projectID +:+ "," +:+ organizationID +:+ "," +:+ publicKey +:+ "," +:+ privateKey
        /\ Forall (fun field => strings.Contains field "," = false)
             [projectID; organizationID; publicKey; privateKey]
        /\ calls (trace (run h (ImportState reqID resp) w))
           = [ClientFactory.mkCall publicKey privateKey
                (OrganizationClient.GetProject projectID)]).
Proof.
  pose proof (Split_length reqID ",") as Hlen.
  pose proof (Join_Split reqID ",") as Hjoin.
  pose proof (Split_fields_clean reqID ",") as Hclean.
  unfold ImportState.
  destruct (strings.Split reqID ",") as [|a [|b [|c [|d [|e l]]]]]; simpl in Hlen; split;
    intros Hcount; try reflexivity; try lia.
  exists a, b, c, d. split; [now rewrite <- Hjoin |]. split; [exact Hclean |].
  cbn -[resource.AddError resource.Set_ types.metadataMap Nat.ltb].
  destruct (h _ w) as [r w1]. cbn [fst snd].
  destruct r as [project | err];
    cbn -[resource.AddError resource.Set_ types.metadataMap Nat.ltb];
    [| reflexivity].
  now destruct ((0 <? size (Project.Metadata project))%nat
                && diag.HasError (resource.Diagnostics resp)).
Qed.

(** X15.  When the read of an import fails, ImportState reports "Error
    importing project" with a detail naming the project ID and the client's
    error, and sets no state. *)
Theorem ImportState_reports_the_failed_read (reqID : string) (resp : Response)
    (projectID organizationID publicKey privateKey : string) (err : error) :
  diag.HasError (resource.Diagnostics resp) = false ->
  strings.Split reqID "," = [projectID; organizationID; publicKey; privateKey] ->
  fst (h (ClientFactory.mkCall publicKey privateKey
            (OrganizationClient.GetProject projectID)) w) = Err err ->
  let o := run h (ImportState reqID resp) w in
  resource.State (value o) = resource.State resp
  /\ exists detail,
       resource.Diagnostics (value o)
       = resource.Diagnostics resp
         ++ [diag.mkDiagnostic diag.SeverityError "Error importing project" detail]
       /\ strings.Contains detail projectID = true
       /\ strings.Contains detail err = true.
Proof.
  intros Hne Hsplit Hread o. subst o. unfold ImportState. rewrite Hsplit.
  cbn -[resource.AddError resource.Set_ types.metadataMap Nat.ltb].
  destruct (h _ w) as [r w1]. cbn [fst snd] in *. subst r.
  cbn -[resource.AddError]. rewrite (AddError_fresh _ _ _ Hne). cbn -[strings.Contains].
  split; [reflexivity |]. eexists. split; [reflexivity |]. split.
  - apply Contains_spec. now exists "Could not read project ", (": " +:+ err).
  - rewrite <- !append_assoc. apply Contains_suffix.
Qed.

(** X16.  Update replaces the whole object: its one call is UpdateProject on
    the ID of the current state (not of the configuration), with the
    configured name, retention (0 when not set) and metadata (empty when null
    or unknown), on the client of the configured key pair.  On success the
    record takes ID, name and metadata from the remote's answer and the
    retention days from the configuration, whatever the answer's retention;
    on failure the state is left as it was. *)
Theorem Update_replaces_the_whole_project (data currentState : Model) (resp : Response) :
  diag.HasError (resource.Diagnostics resp) = false ->
  let update :=
    ClientFactory.mkCall (types.ValueString (OrganizationPublicKey data))
      (types.ValueString (OrganizationPrivateKey data))
      (OrganizationClient.UpdateProject (types.ValueString (ID currentState))
         (UpdateProjectRequest.mk (types.ValueString (Name data))
            (types.ValueInt32 (RetentionDays data))
            (types.ElementsAs (Metadata data)))) in
  let o := run h (Update data currentState resp) w in
  calls (trace o) = [update]
  /\ match fst (h update w) with
     | Ok project =>
         exists record,
           value o = resource.mkResponse (resource.Diagnostics resp) (Some record)
           /\ ID record = types.StringValue (Project.ID project)
           /\ Name record = types.StringValue (Project.Name project)
           /\ RetentionDays record = RetentionDays data
           /\ types.ElementsAs (Metadata record) = Project.Metadata project
     | Err err =>
         value o
         = resource.mkResponse
             (resource.Diagnostics resp
              ++ [diag.mkDiagnostic diag.SeverityError "Error updating project" err])
             (resource.State resp)
     end.
Proof.
  intros Hne update o. subst o. unfold Update. rewrite Hne.
  assert (Hmeta : configuredMetadata (Metadata data) = types.ElementsAs (Metadata data)).
  { unfold configuredMetadata. now destruct (Metadata data). }
  rewrite Hmeta.
  cbn -[resource.AddError resource.Set_ types.metadataMap types.ElementsAs].
  fold update. destruct (h update w) as [r w1]. cbn [fst snd].
  destruct r as [project | err];
    cbn -[resource.AddError types.metadataMap types.ElementsAs];
    (split; [reflexivity |]).
  - eexists. split; [reflexivity |]. repeat split. apply metadataMap_round_trip.
  - now rewrite (AddError_fresh _ _ _ Hne).
Qed.

(** X17.  Create makes one call, CreateProject with the configured name,
    retention (0 when not set) and metadata.  On success the record's
    retention days are the ones in the remote's answer, not the configured
    ones (unlike Read and Update), and the organization ID and key pair are
    the configured ones, as known strings; on failure no state is set. *)
Theorem Create_stores_the_answered_retention (data : Model) (resp : Response) :
  diag.HasError (resource.Diagnostics resp) = false ->
  let create :=
    ClientFactory.mkCall (types.ValueString (OrganizationPublicKey data))
      (types.ValueString (OrganizationPrivateKey data))
      (OrganizationClient.CreateProject
         (CreateProjectRequest.mk (types.ValueString (Name data))
            (types.ValueInt32 (RetentionDays data))
            (types.ElementsAs (Metadata data)))) in
  let o := run h (Create data resp) w in
  calls (trace o) = [create]
  /\ match fst (h create w) with
     | Ok project =>
         exists record,
           value o = resource.mkResponse (resource.Diagnostics resp) (Some record)
           /\ ID record = types.StringValue (Project.ID project)
           /\ RetentionDays record = types.Int32Value (Project.RetentionDays project)
           /\ OrganizationID record
              = types.StringValue (types.ValueString (OrganizationID data))
           /\ OrganizationPublicKey record
              = types.StringValue (types.ValueString (OrganizationPublicKey data))
           /\ OrganizationPrivateKey record
              = types.StringValue (types.ValueString (OrganizationPrivateKey data))
     | Err err =>
         value o
         = resource.mkResponse
             (resource.Diagnostics resp
              ++ [diag.mkDiagnostic diag.SeverityError "Error creating project" err])
             (resource.State resp)
     end.
Proof.
  intros Hne create o. subst o. unfold Create. rewrite Hne.
  assert (Hmeta : configuredMetadata (Metadata data) = types.ElementsAs (Metadata data)).
  { unfold configuredMetadata. now destruct (Metadata data). }
  rewrite Hmeta.
  cbn -[resource.AddError resource.Set_ types.metadataMap types.ElementsAs].
  fold create. destruct (h create w) as [r w1]. cbn [fst snd].
  destruct r as [project | err];
    cbn -[resource.AddError types.metadataMap types.ElementsAs];
    (split; [reflexivity |]).
  - eexists. split; [reflexivity |]. repeat split.
  - now rewrite (AddError_fresh _ _ _ Hne).
Qed.

(** X18.  Read is stable: reading again the record a Read has stored,
    against a remote that still answers with the same project, stores the same
    record. *)
Theorem Read_is_stable (data : Model) (resp : Response) (project : Project.t) (w' : W) :
  diag.HasError (resource.Diagnostics resp) = false ->
  let client :=
    ClientFactory.mkCall (types.ValueString (OrganizationPublicKey data))
      (types.ValueString (OrganizationPrivateKey data)) in
  fst (h (client (OrganizationClient.GetProject (types.ValueString (ID data)))) w) = Ok project ->
  fst (h (client (OrganizationClient.GetProject (Project.ID project))) w') = Ok project ->
  exists record,
    value (run h (Read data resp) w)
    = resource.mkResponse (resource.Diagnostics resp) (Some record)
    /\ value (run h (Read record (resource.mkResponse (resource.Diagnostics resp) (Some record))) w')
       = resource.mkResponse (resource.Diagnostics resp) (Some record).
Proof.
  intros Hne client Hfirst Hsecond. unfold Read.
  cbn [resource.Diagnostics]. rewrite Hne.
  cbn -[resource.AddError types.metadataMap]. fold client.
  destruct (h (client (OrganizationClient.GetProject (types.ValueString (ID data)))) w)
    as [r1 w1].
  cbn [fst snd] in *. subst r1. cbn -[resource.AddError types.metadataMap].
  eexists. split; [reflexivity |].
  cbn -[resource.AddError types.metadataMap]. fold client.
  destruct (h (client (OrganizationClient.GetProject (Project.ID project))) w')
    as [r2 w2].
  cbn [fst snd] in *. subst r2. reflexivity.
Qed.

End ProjectFurther.

(** ** Further properties of the organization adapter and of the provider *)

Section OrganizationFurther.

Import organizationResource organizationResourceModel.

Context {W : Type} (h : Handler AdminClient.answer W) (w : W).

(** X19.  Organization Update makes one call, UpdateOrganization on the ID
    of the current state (the configuration's ID plays no part) with the
    configured name and metadata.  On success the record is the organization
    the remote answered with; on failure the state is left as it was, with
    the error "Error updating organization". *)
Theorem Update_targets_the_stored_organization (data currentState : Model) (resp : Response) :
  diag.HasError (resource.Diagnostics resp) = false ->
  let update :=
    AdminClient.UpdateOrganization (types.ValueString (ID currentState))
      (UpdateOrganizationRequest.mk (types.ValueString (Name data))
         (types.ElementsAs (Metadata data))) in
  let o := run h (Update data currentState resp) w in
  calls (trace o) = [update]
  /\ match fst (h update w) with
     | Ok org =>
         exists record,
           value o = resource.mkResponse (resource.Diagnostics resp) (Some record)
           /\ ID record = types.StringValue (Organization.ID org)
           /\ Name record = types.StringValue (Organization.Name org)
           /\ types.ElementsAs (Metadata record) = Organization.Metadata org
     | Err err =>
         value o
         = resource.mkResponse
             (resource.Diagnostics resp
              ++ [diag.mkDiagnostic diag.SeverityError "Error updating organization" err])
             (resource.State resp)
     end.
Proof.
  intros Hne update o. subst o. unfold Update. rewrite Hne.
  assert (Hmeta : configuredMetadata (Metadata data) = types.ElementsAs (Metadata data)).
  { unfold configuredMetadata. now destruct (Metadata data). }
  rewrite Hmeta.
  cbn -[resource.AddError resource.Set_ types.metadataMap types.ElementsAs].
  fold update. destruct (h update w) as [r w1]. cbn [fst snd].
  destruct r as [org | err];
    cbn -[resource.AddError types.metadataMap types.ElementsAs];
    (split; [reflexivity |]).
  - eexists. split; [reflexivity |]. repeat split. apply metadataMap_round_trip.
  - now rewrite (AddError_fresh _ _ _ Hne).
Qed.

(** X20.  Organization ImportState makes one call, GetOrganization of the
    given identifier.  On success the record's ID is the given identifier
    (also when the answer carries another ID) and its name is the answer's; on
    failure it reports "Error importing organization" with a detail naming the
    identifier and the client's error, and sets no state. *)
Theorem ImportState_imports_under_the_given_id (reqID : string) (resp : Response) :
  diag.HasError (resource.Diagnostics resp) = false ->
  let read := AdminClient.GetOrganization reqID in
  let o := run h (ImportState reqID resp) w in
  calls (trace o) = [read]
  /\ match fst (h read w) with
     | Ok org =>
         exists record,
           value o = resource.mkResponse (resource.Diagnostics resp) (Some record)
           /\ ID record = types.StringValue reqID
           /\ Name record = types.StringValue (Organization.Name org)
           /\ types.ElementsAs (Metadata record) = Organization.Metadata org
     | Err err =>
         resource.State (value o) = resource.State resp
         /\ exists detail,
              resource.Diagnostics (value o)
              = resource.Diagnostics resp
                ++ [diag.mkDiagnostic diag.SeverityError "Error importing organization" detail]
              /\ strings.Contains detail reqID = true
              /\ strings.Contains detail err = true
     end.
Proof.
  intros Hne read o. subst o. unfold ImportState. rewrite Hne.
  cbn -[resource.AddError resource.Set_ types.metadataMap types.ElementsAs Nat.ltb].
  fold read. destruct (h read w) as [r w1]. cbn [fst snd].
  destruct r as [org | err];
    cbn -[resource.AddError types.metadataMap types.ElementsAs Nat.ltb].
  - rewrite andb_false_r.
    cbn -[resource.AddError types.metadataMap types.ElementsAs Nat.ltb].
    split; [reflexivity |]. eexists. split; [reflexivity |].
    repeat split. apply metadataMap_round_trip.
  - split; [reflexivity |].
    rewrite (AddError_fresh _ _ _ Hne). cbn -[strings.Contains].
    split; [reflexivity |]. eexists. split; [reflexivity |]. split.
    + apply Contains_spec. now exists "Could not read organization ", (": " +:+ err).
    + rewrite <- !append_assoc. apply Contains_suffix.
Qed.

End OrganizationFurther.

(** X21.  Configure always hands a client factory to the resources, built
    with a host that is never empty: the configured host when it is a known,
    non-empty string, else "https://app.langfuse.com".  The admin key is the
    configured one when it is a known, non-empty string, else the value of the
    environment variable. *)
Theorem Configure_resolves_host_and_key (config : langfuseProviderModel.t)
    (LANGFUSE_ADMIN_KEY : string) (resp : langfuseProvider.ConfigureResponse) :
  diag.HasError (langfuseProvider.Diagnostics resp) = false ->
  exists factory,
    langfuseProvider.Configure config LANGFUSE_ADMIN_KEY resp
    = langfuseProvider.mkConfigureResponse (langfuseProvider.Diagnostics resp)
        (Some factory) (Some factory)
    /\ langfuseProvider.factoryHost factory <> ""
    /\ (forall configured,
          langfuseProviderModel.Host config = types.StringValue configured ->
          configured <> "" ->
          langfuseProvider.factoryHost factory = configured)
    /\ (types.ValueString (langfuseProviderModel.Host config) = "" ->
        langfuseProvider.factoryHost factory = "https://app.langfuse.com")
    /\ (forall configured,
          langfuseProviderModel.AdminAPIKey config = types.StringValue configured ->
          configured <> "" ->
          langfuseProvider.factoryAdminKey factory = configured)
    /\ (types.ValueString (langfuseProviderModel.AdminAPIKey config) = "" ->
        langfuseProvider.factoryAdminKey factory = LANGFUSE_ADMIN_KEY).
Proof.
  intros Hne. unfold langfuseProvider.Configure. rewrite Hne.
  eexists. split; [reflexivity |]. cbn [langfuseProvider.factoryHost langfuseProvider.factoryAdminKey].
  destruct config as [cfgHost cfgKey]. cbn [langfuseProviderModel.Host langfuseProviderModel.AdminAPIKey].
  split; [| split; [| split; [| split]]].
  - destruct cfgHost as [| | s]; simpl; try discriminate.
    destruct (String.eqb s "") eqn:E; simpl; [discriminate | now apply String.eqb_neq in E].
  - intros configured -> Hc. simpl. apply String.eqb_neq in Hc. now rewrite Hc.
  - destruct cfgHost as [| | s]; simpl; try reflexivity. now intros ->.
  - intros configured -> Hc. simpl. apply String.eqb_neq in Hc. now rewrite Hc.
  - destruct cfgKey as [| | s]; simpl; try reflexivity. now intros ->.
Qed.

(** ** The further properties on concrete remotes *)

Lemma transport_error_is_returned_witness :
  let o := run wire.scripted
             (organizationClientImpl_call wire.decoder fixture.buildURL wire.client
                (OrganizationClient.GetProject "proj-123")) [] in
  (forall req, fst (wire.scripted req []) = Err "connection refused")
  /\ length (trace o) = 1
  /\ exists e,
       observe.failure (OrganizationClient.GetProject "proj-123") (value o) = Some e
       /\ strings.Contains e "failed to make request: connection refused" = true.
Proof.
  assert (Hdown : forall req, fst (wire.scripted req []) = Err "connection refused")
    by (intros req; reflexivity).
  split; [exact Hdown |].
  exact (transport_error_is_returned wire.decoder fixture.buildURL wire.scripted []
           wire.client (OrganizationClient.GetProject "proj-123") "connection refused"
           Hdown).
Defined.

Lemma GetMembership_finds_the_resolved_id_witness :
  let listed := [fixture.alice "" "MEMBER"] in
  In (fixture.alice "" "MEMBER") listed
  /\ exists found,
       value (run wire.scripted
                (GetMembership wire.decoder fixture.buildURL wire.client "u-42")
                [Ok (wire.memberships (listMembershipsResponse.mk listed))])
       = Ok found
       /\ In found listed
       /\ (OrganizationMembership.ID found = "u-42"
           \/ OrganizationMembership.UserID found = "u-42").
Proof.
  split; [now left |].
  exact (GetMembership_finds_the_resolved_id wire.decoder fixture.buildURL wire.scripted
           [Ok (wire.memberships (listMembershipsResponse.mk [fixture.alice "" "MEMBER"]))]
           wire.client
           (wire.memberships (listMembershipsResponse.mk [fixture.alice "" "MEMBER"]))
           [fixture.alice "" "MEMBER"] (fixture.alice "" "MEMBER")
           eq_refl eq_refl (or_introl eq_refl)).
Defined.

Lemma UpdateMembership_returns_an_identified_membership_witness :
  let script :=
    [Ok (wire.memberships (listMembershipsResponse.mk [fixture.alice "m-1" "MEMBER"]));
     Ok (wire.membership (fixture.alice "" "ADMIN"))] in
  value (run wire.scripted
           (UpdateMembership wire.decoder fixture.buildURL wire.client "m-1"
              (UpdateMembershipRequest.mk "" "" "ADMIN")) script)
  = Ok (fixture.alice "m-1" "ADMIN")
  /\ OrganizationMembership.ID (fixture.alice "m-1" "ADMIN") <> "".
Proof.
  split; [reflexivity |].
  assert (Hid : "m-1" <> "") by discriminate.
  exact (proj1 (UpdateMembership_returns_an_identified_membership wire.decoder
                  fixture.buildURL wire.scripted
                  [Ok (wire.memberships
                         (listMembershipsResponse.mk [fixture.alice "m-1" "MEMBER"]));
                   Ok (wire.membership (fixture.alice "" "ADMIN"))]
                  wire.client "m-1" (UpdateMembershipRequest.mk "" "" "ADMIN")
                  (fixture.alice "m-1" "ADMIN") Hid eq_refl)).
Defined.

Lemma Read_drops_an_unlisted_membership_witness :
  let bob := OrganizationMembership.mk "m-7" "bob@example.com" "MEMBER" "ACTIVE" "u-7" "bob" in
  let known := fixture.record "u-42" "ADMIN" in
  let o := run wire.scripted
             (interp (clientFactoryImpl wire.decoder fixture.buildURL wire.host)
                (organizationMembershipResource.Read known (fixture.fresh (Some known))))
             [Ok (wire.memberships (listMembershipsResponse.mk [bob]))] in
  value o = resource.mkResponse [] None.
Proof.
  refine (proj2 (Read_drops_an_unlisted_membership wire.decoder fixture.buildURL wire.host
                   wire.scripted
                   [Ok (wire.memberships
                          (listMembershipsResponse.mk
                             [OrganizationMembership.mk "m-7" "bob@example.com" "MEMBER"
                                "ACTIVE" "u-7" "bob"]))]
                   (fixture.record "u-42" "ADMIN")
                   (fixture.fresh (Some (fixture.record "u-42" "ADMIN")))
                   _ _ eq_refl eq_refl eq_refl _)).
  repeat constructor; discriminate.
Defined.

Lemma Delete_project_trusts_the_success_flag_witness :
  let o := run wire.scripted
             (interp (clientFactoryImpl wire.decoder fixture.buildURL wire.host)
                (projectResource.Delete (fixture.project 30)
                   (fixture.fresh (Some (fixture.project 30)))))
             [Ok (wire.projectDeleted (deleteProjectResponse.mk false "Project deleted"))] in
  resource.State (value o) = Some (fixture.project 30)
  /\ exists detail,
       resource.Diagnostics (value o)
       = [diag.mkDiagnostic diag.SeverityError "Error deleting project" detail]
       /\ strings.Contains detail "proj-123" = true
       /\ strings.Contains detail "Project deleted" = true.
Proof.
  exact (proj2 (Delete_project_trusts_the_success_flag wire.decoder fixture.buildURL
                  wire.host wire.scripted
                  [Ok (wire.projectDeleted (deleteProjectResponse.mk false "Project deleted"))]
                  (fixture.project 30) (fixture.fresh (Some (fixture.project 30)))
                  _ _ eq_refl eq_refl eq_refl)).
Defined.

Lemma Create_new_member_call_sequence_witness :
  let user := SCIMUserResponse.mk "u-42" "alice@example.com" [] true in
  let listed := listMembershipsResponse.mk [fixture.alice "m-1" "MEMBER"] in
  let script :=
    [Ok (wire.memberships (listMembershipsResponse.mk [])); Ok (wire.scimUser user);
     Ok (wire.memberships listed); Ok (wire.memberships listed);
     Ok (wire.membership (fixture.alice "m-1" "ADMIN"))] in
  let o := run wire.remote
             (organizationMembershipResource.Create (fixture.plan "ADMIN") (fixture.fresh None))
             script in
  map (fun c => ClientFactory.method c) (calls (trace o))
  = [OrganizationClient.ListMemberships;
     OrganizationClient.CreateSCIMUser
       (SCIMUserRequest.mk "alice@example.com"
          [SCIMEmail.mk "alice@example.com" true] "" true);
     OrganizationClient.ListMemberships;
     OrganizationClient.UpdateMembership "m-1" (UpdateMembershipRequest.mk "u-42" "" "ADMIN")].
Proof.
  pose proof
    (Create_new_member_call_sequence wire.remote
       [Ok (wire.memberships (listMembershipsResponse.mk []));
        Ok (wire.scimUser (SCIMUserResponse.mk "u-42" "alice@example.com" [] true));
        Ok (wire.memberships (listMembershipsResponse.mk [fixture.alice "m-1" "MEMBER"]));
        Ok (wire.memberships (listMembershipsResponse.mk [fixture.alice "m-1" "MEMBER"]));
        Ok (wire.membership (fixture.alice "m-1" "ADMIN"))]
       (fixture.plan "ADMIN") (fixture.fresh None) [] [fixture.alice "m-1" "MEMBER"]
       (SCIMUserResponse.mk "u-42" "alice@example.com" [] true)
       (fixture.alice "m-1" "MEMBER")
       eq_refl eq_refl eq_refl eq_refl eq_refl eq_refl eq_refl) as [Hcalls _].
  cbv zeta. rewrite Hcalls. reflexivity.
Defined.

Lemma Create_reports_failed_user_creation_witness :
  let o := run wire.remote
             (organizationMembershipResource.Create (fixture.plan "ADMIN") (fixture.fresh None))
             [Ok (wire.memberships (listMembershipsResponse.mk [])); Err "timeout"] in
  resource.State (value o) = None
  /\ exists detail,
       resource.Diagnostics (value o)
       = [diag.mkDiagnostic diag.SeverityError "Error creating user via SCIM" detail]
       /\ strings.Contains detail "alice@example.com" = true
       /\ strings.Contains detail
            "failed to create SCIM user: failed to make request: timeout" = true.
Proof.
  exact (proj2 (Create_reports_failed_user_creation wire.remote
                  [Ok (wire.memberships (listMembershipsResponse.mk [])); Err "timeout"]
                  (fixture.plan "ADMIN") (fixture.fresh None) []
                  "failed to create SCIM user: failed to make request: timeout"
                  eq_refl eq_refl eq_refl eq_refl eq_refl)).
Defined.

Lemma stored_record_keeps_the_key_pair_witness :
  let known := fixture.record "u-42" "MEMBER" in
  let o := run wire.remote
             (organizationMembershipResource.Read known (fixture.fresh (Some known)))
             [Ok (wire.memberships (listMembershipsResponse.mk [fixture.alice "" "ADMIN"]))] in
  resource.State (value o) = Some (fixture.record "u-42" "ADMIN")
  /\ OrganizationPublicKey (fixture.record "u-42" "ADMIN") = types.StringValue "pk-1234"
  /\ OrganizationPrivateKey (fixture.record "u-42" "ADMIN") = types.StringValue "sk-1234".
Proof.
  split; [reflexivity |].
  apply (stored_record_keeps_the_key_pair wire.remote
           [Ok (wire.memberships (listMembershipsResponse.mk [fixture.alice "" "ADMIN"]))]
           (fixture.plan "ADMIN") (fixture.record "u-42" "MEMBER")
           (fixture.fresh (Some (fixture.record "u-42" "MEMBER"))) eq_refl
           (organizationMembershipResource.Read (fixture.record "u-42" "MEMBER")
              (fixture.fresh (Some (fixture.record "u-42" "MEMBER"))))
           (fixture.record "u-42" "MEMBER"));
    [right; left; reflexivity | reflexivity | reflexivity].
Defined.

Lemma Delete_removes_by_user_id_witness :
  let known := fixture.record "m-1" "MEMBER" in
  let o := run wire.remote
             (organizationMembershipResource.Delete known (fixture.fresh (Some known)))
             [Ok (wire.memberRemoved (removeMemberResponse.mk true "ok"))] in
  calls (trace o)
  = [ClientFactory.mkCall "pk-1234" "sk-1234" (OrganizationClient.RemoveMember "u-42")].
Proof.
  exact (proj1 (Delete_removes_by_user_id wire.remote
                  [Ok (wire.memberRemoved (removeMemberResponse.mk true "ok"))]
                  (fixture.record "m-1" "MEMBER")
                  (fixture.fresh (Some (fixture.record "m-1" "MEMBER"))) eq_refl)).
Defined.

Lemma Read_after_ImportState_has_no_keys_witness :
  exists imported,
    organizationMembershipResource.ImportState "u-42" (resource.mkResponse [] None)
    = Ret (resource.mkResponse [] (Some imported))
    /\ ID imported = types.StringValue "u-42"
    /\ OrganizationPublicKey imported = types.StringNull
    /\ OrganizationPrivateKey imported = types.StringNull
    /\ calls (trace (run wire.remote
                       (organizationMembershipResource.Read imported
                          (resource.mkResponse [] (Some imported))) []))
       = [ClientFactory.mkCall "" "" (OrganizationClient.GetMembership "u-42")].
Proof.
  exact (Read_after_ImportState_has_no_keys wire.remote [] "u-42" [] eq_refl).
Defined.

Lemma ImportState_accepts_exactly_three_commas_witness :
  strings.Count "just-project-id" "," <> 3
  /\ strings.Count "proj-123,org-456,pk-789,sk-012" "," = 3
  /\ exists projectID organizationID publicKey privateKey,
       "proj-123,org-456,pk-789,sk-012"
       = projectID +:+ "," +:+ organizationID +:+ "," +:+ publicKey +:+ "," +:+ privateKey
       /\ Forall (fun field => strings.Contains field "," = false)
            [projectID; organizationID; publicKey; privateKey]
       /\ calls (trace (run wire.remote
                          (projectResource.ImportState "proj-123,org-456,pk-789,sk-012"
                             (fixture.fresh None)) []))
          = [ClientFactory.mkCall publicKey privateKey
               (OrganizationClient.GetProject projectID)].
Proof.
  split; [discriminate |]. split; [reflexivity |].
  exact (proj2 (ImportState_accepts_exactly_three_commas wire.remote []
                  "proj-123,org-456,pk-789,sk-012" (fixture.fresh None)) eq_refl).
Defined.

Lemma ImportState_reports_the_failed_read_witness :
  let o := run wire.remote
             (projectResource.ImportState "proj-123,org-456,pk-789,sk-012" (fixture.fresh None))
             [Ok (wire.projects (listProjectsResponse.mk []))] in
  resource.State (value o) = None
  /\ exists detail,
       resource.Diagnostics (value o)
       = [diag.mkDiagnostic diag.SeverityError "Error importing project" detail]
       /\ strings.Contains detail "proj-123" = true
       /\ strings.Contains detail "cannot find project with ID proj-123" = true.
Proof.
  exact (ImportState_reports_the_failed_read wire.remote
           [Ok (wire.projects (listProjectsResponse.mk []))]
           "proj-123,org-456,pk-789,sk-012" (fixture.fresh None)
           "proj-123" "org-456" "pk-789" "sk-012" "cannot find project with ID proj-123"
           eq_refl eq_refl eq_refl).
Defined.

Lemma Update_replaces_the_whole_project_witness :
  let answered := Project.mk "proj-123" "ChatQA Plus" 0 ∅ in
  let o := run wire.remote
             (projectResource.Update (fixture.project 30) (fixture.project 7)
                (fixture.fresh (Some (fixture.project 7))))
             [Ok (wire.project answered)] in
  calls (trace o)
  = [ClientFactory.mkCall "pub-key" "priv-key"
       (OrganizationClient.UpdateProject "proj-123"
          (UpdateProjectRequest.mk "test-project" 30 ∅))].
Proof.
  exact (proj1 (Update_replaces_the_whole_project wire.remote
                  [Ok (wire.project (Project.mk "proj-123" "ChatQA Plus" 0 ∅))]
                  (fixture.project 30) (fixture.project 7)
                  (fixture.fresh (Some (fixture.project 7))) eq_refl)).
Defined.

Lemma Create_stores_the_answered_retention_witness :
  let answered := Project.mk "proj-123" "test-project" 0 ∅ in
  let o := run wire.remote
             (projectResource.Create (fixture.project 30) (fixture.fresh None))
             [Ok (wire.project answered)] in
  calls (trace o)
  = [ClientFactory.mkCall "pub-key" "priv-key"
       (OrganizationClient.CreateProject (CreateProjectRequest.mk "test-project" 30 ∅))].
Proof.
  exact (proj1 (Create_stores_the_answered_retention wire.remote
                  [Ok (wire.project (Project.mk "proj-123" "test-project" 0 ∅))]
                  (fixture.project 30) (fixture.fresh None) eq_refl)).
Defined.

Lemma Read_is_stable_witness :
  let listed := listProjectsResponse.mk [Project.mk "proj-123" "test-project" 0 ∅] in
  exists record,
    value (run wire.remote
             (projectResource.Read (fixture.project 30) (fixture.fresh None))
             [Ok (wire.projects listed)])
    = resource.mkResponse [] (Some record)
    /\ value (run wire.remote
                (projectResource.Read record (resource.mkResponse [] (Some record)))
                [Ok (wire.projects listed)])
       = resource.mkResponse [] (Some record).
Proof.
  exact (Read_is_stable wire.remote
           [Ok (wire.projects
                  (listProjectsResponse.mk [Project.mk "proj-123" "test-project" 0 ∅]))]
           (fixture.project 30) (fixture.fresh None)
           (Project.mk "proj-123" "test-project" 0 ∅)
           [Ok (wire.projects
                  (listProjectsResponse.mk [Project.mk "proj-123" "test-project" 0 ∅]))]
           eq_refl eq_refl eq_refl).
Defined.

Lemma Update_targets_the_stored_organization_witness :
  let renamed :=
    organizationResourceModel.mk types.StringNull (types.StringValue "Acme Corp")
      types.MapNull in
  let o := run (wire.admin (Organization.mk "org-123" "Acme Corp" ∅))
             (organizationResource.Update renamed wire.acme (fixture.fresh (Some wire.acme)))
             tt in
  calls (trace o)
  = [AdminClient.UpdateOrganization "org-123" (UpdateOrganizationRequest.mk "Acme Corp" ∅)].
Proof.
  exact (proj1 (Update_targets_the_stored_organization
                  (wire.admin (Organization.mk "org-123" "Acme Corp" ∅)) tt
                  (organizationResourceModel.mk types.StringNull
                     (types.StringValue "Acme Corp") types.MapNull)
                  wire.acme (fixture.fresh (Some wire.acme)) eq_refl)).
Defined.

Lemma ImportState_imports_under_the_given_id_witness :
  let o := run (wire.admin (Organization.mk "org-123" "Acme" ∅))
             (organizationResource.ImportState "org-456" (fixture.fresh None)) tt in
  exists record,
    value o = resource.mkResponse [] (Some record)
    /\ organizationResourceModel.ID record = types.StringValue "org-456"
    /\ organizationResourceModel.Name record = types.StringValue "Acme"
    /\ types.ElementsAs (organizationResourceModel.Metadata record) = ∅.
Proof.
  exact (proj2 (ImportState_imports_under_the_given_id
                  (wire.admin (Organization.mk "org-123" "Acme" ∅)) tt
                  "org-456" (fixture.fresh None) eq_refl)).
Defined.

Lemma Configure_resolves_host_and_key_witness :
  exists factory,
    langfuseProvider.Configure
      (langfuseProviderModel.mk types.StringNull (types.StringValue ""))
      "admin-key-from-env" (langfuseProvider.mkConfigureResponse [] None None)
    = langfuseProvider.mkConfigureResponse [] (Some factory) (Some factory)
    /\ langfuseProvider.factoryHost factory = "https://app.langfuse.com"
    /\ langfuseProvider.factoryAdminKey factory = "admin-key-from-env".
Proof.
  destruct (Configure_resolves_host_and_key
              (langfuseProviderModel.mk types.StringNull (types.StringValue ""))
              "admin-key-from-env" (langfuseProvider.mkConfigureResponse [] None None)
              eq_refl) as [factory [Hconf [_ [_ [Hhost [_ Hkey]]]]]].
  exists factory. split; [exact Hconf |]. split; [exact (Hhost eq_refl) | exact (Hkey eq_refl)].
Defined.

(** ** Lookups and identifiers over the HTTP client *)

Section LookupsOverHTTP.

Context {R W : Type} (D : Decoder R) (buildURL : string -> string -> string)
  (host : string) (h : Handler (Do_answer R) W) (w : W).

(** X22.  The client's lookups never return another object than the one
    asked for: a project returned by GetProject has the requested ID, an API
    key returned by GetProjectApiKey has the requested key ID, and a
    membership returned by GetMembership has the requested identifier as its
    ID or as its user ID. *)
Theorem lookups_return_the_requested_object (c : organizationClientImpl) :
  (forall projectID project,
     value (run h (GetProject D buildURL c projectID) w) = Ok project ->
     Project.ID project = projectID)
  /\ (forall projectID apiKeyID key,
        value (run h (GetProjectApiKey D buildURL c projectID apiKeyID) w) = Ok key ->
        ProjectApiKey.ID key = apiKeyID)
  /\ (forall membershipID membership,
        value (run h (GetMembership D buildURL c membershipID) w) = Ok membership ->
        OrganizationMembership.ID membership = membershipID
        \/ OrganizationMembership.UserID membership = membershipID).
Proof.
  split; [| split].
  - intros projectID project. exec_http h; intros Hok; try discriminate.
    injection Hok as <-.
    match goal with
    | H : find _ _ = Some _ |- _ => apply find_some in H as [_ H]
    end.
    now apply String.eqb_eq.
  - intros projectID apiKeyID key. exec_http h; intros Hok; try discriminate.
    injection Hok as <-.
    match goal with
    | H : find _ _ = Some _ |- _ => apply find_some in H as [_ H]
    end.
    now apply String.eqb_eq.
  - intros membershipID membership. exec_http h; intros Hok; try discriminate.
    injection Hok as <-.
    match goal with
    | H : find _ _ = Some _ |- _ =>
        apply find_some in H as [_ H];
        apply orb_true_iff in H as [H | H]; apply String.eqb_eq in H; auto
    end.
Qed.

(** X23.  Membership Update over the HTTP client keeps the record's
    identifier when the remote's answer to the PUT carries no membership ID:
    for a record with a non-empty ID found in the list, the stored record has
    that same ID, and the role, status and user of the answer. *)
Theorem Update_keeps_the_record_id
    (plan state : organizationMembershipResource.Model)
    (resp : organizationMembershipResource.Response)
    (listed answered : R) (memberships : list OrganizationMembership.t)
    (current updated : OrganizationMembership.t) :
  diag.HasError (resource.Diagnostics resp) = false ->
  organizationMembershipResource.isValidRole
    (types.ValueString (organizationMembershipResourceModel.Role plan)) = true ->
  let role := types.ValueString (organizationMembershipResourceModel.Role plan) in
  let id := types.ValueString (organizationMembershipResourceModel.ID state) in
  let auth :=
    Some (types.ValueString (organizationMembershipResourceModel.OrganizationPublicKey state),
          types.ValueString (organizationMembershipResourceModel.OrganizationPrivateKey state)) in
  let url := buildURL host "api/public/organizations/memberships" in
  let list := http.mkRequest "GET" url http.nil auth in
  let put :=
    http.mkRequest "PUT" url
      (http.ofUpdateMembershipRequest
         (UpdateMembershipRequest.mk (OrganizationMembership.UserID current) "" role)) auth in
  id <> "" ->
  fst (h list w) = Ok listed ->
  decode_listMembershipsResponse D listed = Ok (listMembershipsResponse.mk memberships) ->
  find (fun m => String.eqb (OrganizationMembership.ID m) id
                 || String.eqb (OrganizationMembership.UserID m) id) memberships
  = Some current ->
  fst (h put (snd (h list w))) = Ok answered ->
  decode_OrganizationMembership D answered = Ok updated ->
  OrganizationMembership.ID updated = "" ->
  let o := run h (interp (clientFactoryImpl D buildURL host)
                    (organizationMembershipResource.Update plan state resp)) w in
  calls (trace o) = [list; put]
  /\ exists record,
       value o = resource.mkResponse (resource.Diagnostics resp) (Some record)
       /\ organizationMembershipResourceModel.ID record = types.StringValue id
       /\ organizationMembershipResourceModel.Role record
          = types.StringValue (OrganizationMembership.Role updated)
       /\ organizationMembershipResourceModel.Status record
          = types.StringValue (OrganizationMembership.Status updated)
       /\ organizationMembershipResourceModel.UserID record
          = types.StringValue (OrganizationMembership.UserID updated).
Proof.
  intros Hne Hv role id auth url list put Hid Hlist Hdecode Hfind Hput Hupdated Hempty o.
  subst o. unfold organizationMembershipResource.Update. rewrite Hne, Hv.
  cbn -[String.eqb resource.AddError resource.Set_].
  http_requests. fold role id auth url list.
  destruct (h list w) as [r1 w1]. cbn [fst snd] in *. subst r1.
  cbn -[String.eqb resource.AddError resource.Set_]. rewrite Hdecode.
  cbn -[String.eqb resource.AddError resource.Set_]. rewrite Hfind.
  cbn -[String.eqb resource.AddError resource.Set_].
  http_requests. fold role auth url.
  change (String.eqb "" "") with true. cbv iota. fold put.
  destruct (h put w1) as [r2 w2]. cbn [fst snd] in *. subst r2.
  cbn -[String.eqb resource.AddError resource.Set_]. rewrite Hupdated.
  cbn -[String.eqb resource.AddError resource.Set_].
  rewrite Hempty. rewrite String.eqb_refl.
  cbn -[String.eqb resource.AddError].
  apply String.eqb_neq in Hid. rewrite Hid.
  split; [reflexivity |]. eexists. split; [reflexivity |]. repeat split.
Qed.

End LookupsOverHTTP.

Lemma lookups_return_the_requested_object_witness :
  let first := Project.mk "proj-1" "one" 0 ∅ in
  let second := Project.mk "proj-2" "two" 0 ∅ in
  value (run wire.scripted (GetProject wire.decoder fixture.buildURL wire.client "proj-2")
           [Ok (wire.projects (listProjectsResponse.mk [first; second]))])
  = Ok second
  /\ Project.ID second = "proj-2".
Proof.
  split; [reflexivity |].
  exact (proj1 (lookups_return_the_requested_object wire.decoder fixture.buildURL
                  wire.scripted
                  [Ok (wire.projects
                         (listProjectsResponse.mk
                            [Project.mk "proj-1" "one" 0 ∅; Project.mk "proj-2" "two" 0 ∅]))]
                  wire.client)
           "proj-2" (Project.mk "proj-2" "two" 0 ∅) eq_refl).
Defined.

Lemma Update_keeps_the_record_id_witness :
  let known := fixture.record "m-1" "MEMBER" in
  let o := run wire.scripted
             (interp (clientFactoryImpl wire.decoder fixture.buildURL wire.host)
                (organizationMembershipResource.Update (fixture.plan "ADMIN") known
                   (fixture.fresh (Some known))))
             [Ok (wire.memberships (listMembershipsResponse.mk [fixture.alice "m-1" "MEMBER"]));
              Ok (wire.membership (fixture.alice "" "ADMIN"))] in
  exists record,
    value o = resource.mkResponse [] (Some record)
    /\ ID record = types.StringValue "m-1"
    /\ Role record = types.StringValue "ADMIN"
    /\ Status record = types.StringValue "ACTIVE"
    /\ UserID record = types.StringValue "u-42".
Proof.
  assert (Hid : "m-1" <> "") by discriminate.
  exact (proj2 (Update_keeps_the_record_id wire.decoder fixture.buildURL wire.host
                  wire.scripted
                  [Ok (wire.memberships
                         (listMembershipsResponse.mk [fixture.alice "m-1" "MEMBER"]));
                   Ok (wire.membership (fixture.alice "" "ADMIN"))]
                  (fixture.plan "ADMIN") (fixture.record "m-1" "MEMBER")
                  (fixture.fresh (Some (fixture.record "m-1" "MEMBER")))
                  (wire.memberships
                     (listMembershipsResponse.mk [fixture.alice "m-1" "MEMBER"]))
                  (wire.membership (fixture.alice "" "ADMIN"))
                  [fixture.alice "m-1" "MEMBER"] (fixture.alice "m-1" "MEMBER")
                  (fixture.alice "" "ADMIN")
                  eq_refl eq_refl Hid eq_refl eq_refl eq_refl eq_refl eq_refl eq_refl)).
Defined.
